(** * mind-form-maker: the schema-driven form pipeline and the clarification loop

    A shallow embedding of the TypeScript sources

    - [src/components/DynamicForm.tsx]  ([validateField], [handleSubmit],
      [handleChange]),
    - [src/components/FormBuilder.tsx]  ([generateForm],
      [handleClarificationSubmit], the render conditions),
    - [src/components/ClarificationDialog.tsx]  ([handleSubmit]),
    - [src/pages/SharedForm.tsx]  ([fetchForm], the page it renders),
    - [supabase/functions/generate-form/index.ts]  (the request handler),

    together with the statements of the specification that concern them.

    Conventions of the embedding.

    - A JavaScript string is the list of its UTF-16 code units ([jsstring]);
      [JS "..."] turns an ASCII literal into one.
    - A [Record<string, string>] object is the finite map of its own
      properties ([gmap jsstring jsstring]).  Keys are taken not to name the
      members that every object inherits from [Object.prototype]
      ([constructor], [__proto__], ...), for which a property read or write
      goes through the prototype chain.
    - The React state of a component is a record; a handler runs in the
      closure of the render that created it, so it takes the state it closed
      over as an argument, while the setters it calls act on the current
      state.
    - [await]ed collaborator calls receive the collaborator's reply from an
      environment ([Supabase]); a rejected promise is a thrown exception. *)

From Stdlib Require Import String Ascii List NArith Bool Lia.
From stdpp Require Import gmap list.
Import ListNotations.

Local Open Scope N_scope.
Local Open Scope list_scope.

(** ** JavaScript strings *)

Abbreviation jsstring := (list N).

Definition JS (s : string) : jsstring :=
  map N_of_ascii (list_ascii_of_string s).

(** [ToBoolean] on a string: the empty string is the only falsy one. *)
Definition truthy (s : jsstring) : bool :=
  match s with
  | [] => false
  | _ :: _ => true
  end.

(** [a || b] on strings. *)
Definition or_else (a b : jsstring) : jsstring :=
  if truthy a then a else b.

(** ECMAScript [WhiteSpace] and [LineTerminator] code units: what
    [String.prototype.trim] strips and what [\s] matches. *)
Definition isWhiteSpace (c : N) : bool :=
  (9 <=? c) && (c <=? 13)
  || (c =? 32) || (c =? 160) || (c =? 5760)
  || (8192 <=? c) && (c <=? 8202)
  || (c =? 8232) || (c =? 8233) || (c =? 8239) || (c =? 8287)
  || (c =? 12288) || (c =? 65279).

Fixpoint trimStart (s : jsstring) : jsstring :=
  match s with
  | [] => []
  | c :: s' => if isWhiteSpace c then trimStart s' else s
  end.

Definition trimEnd (s : jsstring) : jsstring :=
  rev (trimStart (rev s)).

Definition trim (s : jsstring) : jsstring :=
  trimEnd (trimStart s).

(** "Empty or whitespace-only". *)
Definition blank (s : jsstring) : bool :=
  forallb isWhiteSpace s.

(** The line feed, [\n]. *)
Definition nl : jsstring := [10].

(** [Array.prototype.join] on an array of strings. *)
Fixpoint join (sep : jsstring) (xs : list jsstring) : jsstring :=
  match xs with
  | [] => []
  | [x] => x
  | x :: xs' => x ++ sep ++ join sep xs'
  end.

(** ** Regular expressions of the built-in checks

    The two regular-expression literals of [validateField] use character
    classes, [+], concatenation and the anchors [^] ... [$] only.  They are
    embedded as terms of [Regex.t] and run by derivatives; with both anchors
    present, [test] is a match of the whole string. *)
Module Regex.

Inductive t : Type :=
| Void
| Eps
| Class (p : N -> bool)
| Seq (r1 r2 : t)
| Alt (r1 r2 : t)
| Star (r : t).

Definition Plus (r : t) : t := Seq r (Star r).

Fixpoint nullable (r : t) : bool :=
  match r with
  | Void => false
  | Eps => true
  | Class _ => false
  | Seq r1 r2 => nullable r1 && nullable r2
  | Alt r1 r2 => nullable r1 || nullable r2
  | Star _ => true
  end.

Fixpoint deriv (c : N) (r : t) : t :=
  match r with
  | Void => Void
  | Eps => Void
  | Class p => if p c then Eps else Void
  | Seq r1 r2 =>
      if nullable r1
      then Alt (Seq (deriv c r1) r2) (deriv c r2)
      else Seq (deriv c r1) r2
  | Alt r1 r2 => Alt (deriv c r1) (deriv c r2)
  | Star r1 => Seq (deriv c r1) (Star r1)
  end.

(** [/^r$/.test(s)] *)
Definition test (r : t) (s : jsstring) : bool :=
  nullable (fold_left (fun r c => deriv c r) s r).

End Regex.

Definition isDigit (c : N) : bool := (48 <=? c) && (c <=? 57).

(** [[^\s@]] *)
Definition notSpaceOrAt (c : N) : bool :=
  negb (isWhiteSpace c || (c =? 64)).

(** [/^[^\s@]+@[^\s@]+\.[^\s@]+$/] *)
Definition emailRegex : Regex.t :=
  Regex.Seq (Regex.Plus (Regex.Class notSpaceOrAt))
    (Regex.Seq (Regex.Class (N.eqb 64))
       (Regex.Seq (Regex.Plus (Regex.Class notSpaceOrAt))
          (Regex.Seq (Regex.Class (N.eqb 46))
             (Regex.Plus (Regex.Class notSpaceOrAt))))).

(** [[\d\s\-\+\(\)]] *)
Definition phoneChar (c : N) : bool :=
  isDigit c || isWhiteSpace c
  || (c =? 45) || (c =? 43) || (c =? 40) || (c =? 41).

(** [/^[\d\s\-\+\(\)]+$/] *)
Definition phoneRegex : Regex.t :=
  Regex.Plus (Regex.Class phoneChar).

(** ** Exceptions and results *)

Inductive exn : Type :=
| SyntaxError          (* [new RegExp(p)] on a pattern that does not compile *)
| CollaboratorError.   (* a collaborator's promise was rejected, or its
                          [error] was re-thrown *)

Inductive Res (A : Type) : Type :=
| Return (a : A)
| Throw (e : exn).
Arguments Return {A} a.
Arguments Throw {A} e.

(** ** The data model *)

Inductive FieldType : Type :=
| text | email | tel | number | select | textarea.

Definition FieldType_eqb (a b : FieldType) : bool :=
  match a, b with
  | text, text | email, email | tel, tel
  | number, number | select, select | textarea, textarea => true
  | _, _ => false
  end.

Module Validation.
Record t : Type := mk {
  pattern : option jsstring;
  message : option jsstring
}.
End Validation.

(** [interface FormField] *)
Module Field.
Record t : Type := mk {
  id : jsstring;
  label : jsstring;
  type : FieldType;
  placeholder : option jsstring;
  required : bool;
  validation : option Validation.t;
  options : option (list jsstring)
}.

(** [field.validation?.pattern]; an absent property reads as the (falsy)
    empty string here, which is all the callers look at. *)
Definition validation_pattern (f : t) : jsstring :=
  match validation f with
  | Some v => default [] (Validation.pattern v)
  | None => []
  end.

(** [field.validation.message], read when [field.validation] exists. *)
Definition validation_message (f : t) : jsstring :=
  match validation f with
  | Some v => default [] (Validation.message v)
  | None => []
  end.
End Field.

(** ** The field validator, [validateField] of [DynamicForm] *)

(** A check of the validator either returns an error message, which ends
    [validateField], or falls through to the next statement. *)
Definition check : Type := Res (option jsstring).

Definition falls_through : check := Return None.

Definition and_then (c1 c2 : check) : check :=
  match c1 with
  | Return None => c2
  | _ => c1
  end.

Declare Scope check_scope.
Delimit Scope check_scope with check.
Notation "c1 ;; c2" := (and_then c1 c2)
  (at level 100, c2 at level 200, only parsing, right associativity)
  : check_scope.

Section Validator.

(** [new RegExp(pattern)]: the JavaScript engine either rejects the pattern
    with a [SyntaxError] ([None]) or yields a regular expression, of which
    only [test] is used.  The expression has no flags, so [test] is a
    function of the string alone. *)
Variable RegExp : jsstring -> option (jsstring -> bool).

Definition validateField (field : Field.t) (value : jsstring) : check :=
  ((if Field.required field && negb (truthy (trim value))
    then Return (Some (Field.label field ++ JS " is required"))
    else falls_through) ;;
   (if truthy value && truthy (Field.validation_pattern field)
    then match RegExp (Field.validation_pattern field) with
         | None => Throw SyntaxError
         | Some regex =>
             if negb (regex value)
             then Return (Some (or_else (Field.validation_message field)
                                        (JS "Invalid " ++ Field.label field)))
             else falls_through
         end
    else falls_through) ;;
   (* Built-in validation for common types *)
   (if truthy value && FieldType_eqb (Field.type field) email
    then if negb (Regex.test emailRegex value)
         then Return (Some (JS "Invalid email address"))
         else falls_through
    else falls_through) ;;
   (if truthy value && FieldType_eqb (Field.type field) tel
    then if negb (Regex.test phoneRegex value)
         then Return (Some (JS "Invalid phone number"))
         else falls_through
    else falls_through) ;;
   Return None)%check.

End Validator.

(** The built-in check of the field's type, as the last two statements of
    [validateField] apply it to a non-empty value. *)
Definition builtin_verdict (ty : FieldType) (value : jsstring) : check :=
  match ty with
  | email =>
      if Regex.test emailRegex value then Return None
      else Return (Some (JS "Invalid email address"))
  | tel =>
      if Regex.test phoneRegex value then Return None
      else Return (Some (JS "Invalid phone number"))
  | _ => Return None
  end.

(** The literal fragment of the JavaScript engine, for running examples: a
    pattern made of ASCII letters and digits only matches the strings that
    contain it.  Every other pattern is answered with [None]; the only such
    pattern run below is the unbalanced [(], which JavaScript rejects with a
    [SyntaxError] too. *)
Definition isAlnum (c : N) : bool :=
  isDigit c || (65 <=? c) && (c <=? 90) || (97 <=? c) && (c <=? 122).

Fixpoint startsWith (p s : jsstring) : bool :=
  match p, s with
  | [], _ => true
  | _ :: _, [] => false
  | a :: p', b :: s' => (a =? b) && startsWith p' s'
  end.

Fixpoint includes (p s : jsstring) : bool :=
  startsWith p s ||
  match s with
  | [] => false
  | _ :: s' => includes p s'
  end.

Definition literalRegExp (p : jsstring) : option (jsstring -> bool) :=
  if forallb isAlnum p then Some (includes p) else None.

Local Close Scope N_scope.

(** [interface FormSchema] of [FormBuilder]: the value the generation gateway
    returns and the builder keeps in its state.  [DynamicForm] and
    [SharedForm] declare narrower interfaces of the same objects (they read
    [title], [description] and [fields] only). *)
Module Schema.
Inductive tag : Type := form | clarification.

Definition tag_eqb (a b : tag) : bool :=
  match a, b with
  | form, form | clarification, clarification => true
  | _, _ => false
  end.

Record t : Type := mk {
  type : tag;
  title : option jsstring;
  description : option jsstring;
  fields : option (list Field.t);
  contradiction : option jsstring;
  questions : option (list jsstring)
}.
End Schema.

(** [x || d] for an optional string property [x]. *)
Definition prop_or (x : option jsstring) (d : jsstring) : jsstring :=
  or_else (default [] x) d.

(** ** Collaborators and effects *)

Inductive ToastKind : Type := toast_error | toast_info | toast_success.

(** What a handler does to the outside, in order.  [console] output is left
    out. *)
Inductive Effect : Type :=
| Toast (kind : ToastKind) (msg : jsstring)
| FunctionsInvoke (description : jsstring)
| FormsInsert (title description : jsstring) (schema : Schema.t)
| SubmissionsInsert (form_title : jsstring)
    (form_data : gmap jsstring jsstring) (form_id : option jsstring).

(** The reply of a collaborator call: [{ data, error: null }],
    [{ error }], or a rejected promise. *)
Inductive Reply (A : Type) : Type :=
| Data (a : A)
| Error
| Rejected.
Arguments Data {A} a.
Arguments Error {A}.
Arguments Rejected {A}.

(** The Supabase client, as far as the two components use it. *)
Class Supabase : Type := {
  (* supabase.functions.invoke('generate-form', { body: { description } }) *)
  functions_invoke : jsstring -> Reply Schema.t;
  (* supabase.from('forms').insert({...}).select().single(); the data is the
     saved row, of which only [id] is read *)
  forms_insert : jsstring -> jsstring -> Schema.t -> Reply jsstring;
  (* supabase.from('form_submissions').insert({...}) *)
  form_submissions_insert :
    jsstring -> gmap jsstring jsstring -> option jsstring -> Reply unit
}.

(** ** Handlers as state-and-exception computations

    A world holds the current state [S] of one component, the effects issued
    so far (oldest first) and the pending [setTimeout] callbacks.  The only
    callback the sources register is [() => generateForm()], so a pending
    callback is represented by the closure (the state) it captured. *)
Record World (S : Type) : Type := mkWorld {
  state : S;
  effects : list Effect;
  timers : list S
}.
Arguments mkWorld {S} _ _ _.
Arguments state {S} _.
Arguments effects {S} _.
Arguments timers {S} _.

Definition M (S A : Type) : Type := World S -> Res A * World S.

Definition ret {S A} (a : A) : M S A := fun w => (Return a, w).

Definition bind {S A B} (m : M S A) (k : A -> M S B) : M S B :=
  fun w =>
    match m w with
    | (Return a, w') => k a w'
    | (Throw e, w') => (Throw e, w')
    end.

Definition throw {S A} (e : exn) : M S A := fun w => (Throw e, w).

(** [try { body } catch (error) { handler }] *)
Definition try_catch {S A} (body : M S A) (handler : exn -> M S A) : M S A :=
  fun w =>
    match body w with
    | (Return a, w') => (Return a, w')
    | (Throw e, w') => handler e w'
    end.

(** [try { body } finally { fin }] *)
Definition try_finally {S A} (body : M S A) (fin : M S unit) : M S A :=
  fun w =>
    match body w with
    | (r, w') =>
        match fin w' with
        | (Return _, w'') => (r, w'')
        | (Throw e, w'') => (Throw e, w'')
        end
    end.

Definition lift {S A} (r : Res A) : M S A := fun w => (r, w).

Definition modify {S} (f : S -> S) : M S unit :=
  fun w => (Return tt, mkWorld (f (state w)) (effects w) (timers w)).

Definition emit {S} (e : Effect) : M S unit :=
  fun w => (Return tt, mkWorld (state w) (effects w ++ [e]) (timers w)).

Definition toast {S} (kind : ToastKind) (msg : string) : M S unit :=
  emit (Toast kind (JS msg)).

(** [await] of a collaborator call: the request is issued, then the reply
    comes back, or the rejection is thrown. *)
Definition await {S A} (request : Effect) (reply : Reply A)
  : M S (option A) :=
  bind (emit request)
       (fun _ => match reply with
                 | Data a => ret (Some a)
                 | Error => ret None
                 | Rejected => throw CollaboratorError
                 end).

Definition run {S A} (m : M S A) (w : World S) : World S := snd (m w).

Declare Scope js_scope.
Delimit Scope js_scope with js.
Notation "'let*' x ':=' c1 'in' c2" := (bind c1 (fun x => c2))
  (at level 10, x name, c1 at level 100, c2 at level 200, only parsing)
  : js_scope.
Notation "c1 ;; c2" := (bind c1 (fun _ => c2))
  (at level 100, c2 at level 200, only parsing, right associativity)
  : js_scope.

(** [xs.forEach(x => ...)] where the body updates a local object [acc] and
    may throw. *)
Fixpoint forEach {A B} (xs : list A) (body : B -> A -> Res B) (acc : B)
  : Res B :=
  match xs with
  | [] => Return acc
  | x :: xs' =>
      match body acc x with
      | Return acc' => forEach xs' body acc'
      | Throw e => Throw e
      end
  end.

(** ** [DynamicForm]: the rendered form, its answers and its errors *)
Module DynamicForm.

(** The four [useState] cells of the component. *)
Record State : Type := mkState {
  formData : gmap jsstring jsstring;
  errors : gmap jsstring jsstring;
  isSubmitting : bool;
  submitted : bool
}.

Definition initial : State := mkState empty empty false false.

Definition setFormData (f : gmap jsstring jsstring -> gmap jsstring jsstring)
  : M State unit :=
  modify (fun s =>
    mkState (f (formData s)) (errors s) (isSubmitting s) (submitted s)).

Definition setErrors (f : gmap jsstring jsstring -> gmap jsstring jsstring)
  : M State unit :=
  modify (fun s =>
    mkState (formData s) (f (errors s)) (isSubmitting s) (submitted s)).

Definition setIsSubmitting (b : bool) : M State unit :=
  modify (fun s => mkState (formData s) (errors s) b (submitted s)).

Definition setSubmitted (b : bool) : M State unit :=
  modify (fun s => mkState (formData s) (errors s) (isSubmitting s) b).

(** [formData[field.id] || ''] *)
Definition answer (formData : gmap jsstring jsstring) (field : Field.t)
  : jsstring :=
  default [] (formData !! Field.id field).

Section Handlers.

Variable RegExp : jsstring -> option (jsstring -> bool).
Context `{Supabase}.

(** The props of the component. *)
Variable schema : Schema.t.
Variable formId : option jsstring.

(** The callback handed to [schema.fields?.forEach]: it records the
    error of one field in [newErrors]. *)
Definition validate_into (formData : gmap jsstring jsstring)
    (newErrors : gmap jsstring jsstring) (field : Field.t)
  : Res (gmap jsstring jsstring) :=
  match validateField RegExp field (answer formData field) with
  | Throw e => Throw e
  | Return None => Return newErrors
  | Return (Some error) =>
      Return (if truthy error
              then <[Field.id field := error]> newErrors
              else newErrors)
  end.

Definition handleSubmit (cl : State) : M State unit :=
  ((* Validate all fields *)
   let* newErrors :=
     lift (forEach (default [] (Schema.fields schema))
                   (validate_into (formData cl)) empty) in
   if negb (Nat.eqb (size newErrors) 0)
   then
     setErrors (fun _ => newErrors) ;;
     toast toast_error "Please fix the errors in the form"
   else
     setIsSubmitting true ;;
     try_finally
       (try_catch
          (let form_title :=
             prop_or (Schema.title schema) (JS "Untitled Form") in
           let form_id :=
             match formId with
             | Some i => if truthy i then Some i else None
             | None => None
             end in
           let* reply :=
             await (SubmissionsInsert form_title (formData cl) form_id)
                   (form_submissions_insert form_title (formData cl)
                                            form_id) in
           match reply with
           | None => throw CollaboratorError
           | Some _ =>
               toast toast_success "Form submitted successfully!" ;;
               setSubmitted true ;;
               setFormData (fun _ => empty) ;;
               setErrors (fun _ => empty)
           end)
          (fun _ =>
             toast toast_error "Failed to submit form. Please try again."))
       (setIsSubmitting false))%js.

Definition handleChange (cl : State) (fieldId value : jsstring)
  : M State unit :=
  (setFormData (fun prev => <[fieldId := value]> prev) ;;
   (* Clear error when user starts typing *)
   if truthy (default [] (errors cl !! fieldId))
   then setErrors (fun prev => delete fieldId prev)
   else ret tt)%js.

(** The events of one render session.  Every handler is the one of the
    latest render, so it closes over the current state. *)
Inductive event : Type :=
| Change (fieldId value : jsstring)
| Submit
| SubmitAnother.

Definition dispatch (ev : event) (w : World State) : World State :=
  match ev with
  | Change fieldId value => run (handleChange (state w) fieldId value) w
  | Submit => run (handleSubmit (state w)) w
  | SubmitAnother => run (setSubmitted false) w
  end.

Inductive reachable : World State -> Prop :=
| reachable_initial : reachable (mkWorld initial [] [])
| reachable_step ev w : reachable w -> reachable (dispatch ev w).

End Handlers.

End DynamicForm.

(** ** [ClarificationDialog] *)
Module ClarificationDialog.

(** [handleSubmit] of the dialog.  [answers] is the dialog's own state, one
    slot per question; the result is its value after the call. *)
Definition handleSubmit {S} (questions answers : list jsstring)
    (onSubmit : list jsstring -> M S unit) : M S (list jsstring) :=
  (if existsb (fun answer => negb (truthy (trim answer))) answers
   then ret answers
   else
     onSubmit answers ;;
     ret (map (fun _ => []) questions))%js.

End ClarificationDialog.

(** ** [FormBuilder]: description, generation and the clarification loop *)
Module FormBuilder.

Record State : Type := mkState {
  description : jsstring;
  isGenerating : bool;
  formSchema : option Schema.t;
  showClarification : bool;
  formId : option jsstring
}.

Definition initial : State := mkState [] false None false None.

Definition setDescription (d : jsstring) : M State unit :=
  modify (fun s =>
    mkState d (isGenerating s) (formSchema s) (showClarification s)
            (formId s)).

Definition setIsGenerating (b : bool) : M State unit :=
  modify (fun s =>
    mkState (description s) b (formSchema s) (showClarification s)
            (formId s)).

Definition setFormSchema (x : option Schema.t) : M State unit :=
  modify (fun s =>
    mkState (description s) (isGenerating s) x (showClarification s)
            (formId s)).

Definition setShowClarification (b : bool) : M State unit :=
  modify (fun s =>
    mkState (description s) (isGenerating s) (formSchema s) b (formId s)).

Definition setFormId (x : option jsstring) : M State unit :=
  modify (fun s =>
    mkState (description s) (isGenerating s) (formSchema s)
            (showClarification s) x).

(** [setTimeout(() => generateForm(), 100)], called in the closure [cl]. *)
Definition setTimeout_generateForm (cl : State) : M State unit :=
  fun w => (Return tt, mkWorld (state w) (effects w) (timers w ++ [cl])).

Section Handlers.

Context `{Supabase}.

Definition generateForm (cl : State) : M State unit :=
  (if negb (truthy (trim (description cl)))
   then toast toast_error "Please describe the form you want to create"
   else
     setIsGenerating true ;;
     try_finally
       (try_catch
          (let* reply :=
             await (FunctionsInvoke (description cl))
                   (functions_invoke (description cl)) in
           match reply with
           | None =>
               toast toast_error
                     "Failed to generate form. Please try again."
           | Some data =>
               setFormSchema (Some data) ;;
               if Schema.tag_eqb (Schema.type data) Schema.clarification
               then
                 setShowClarification true ;;
                 toast toast_info
                       "We need some clarification about your form"
               else
                 (* Save form to database for sharing *)
                 let title :=
                   prop_or (Schema.title data) (JS "Untitled Form") in
                 let description :=
                   prop_or (Schema.description data) [] in
                 let* saved :=
                   await (FormsInsert title description data)
                         (forms_insert title description data) in
                 match saved with
                 | None =>
                     toast toast_error
                       "Form generated but couldn't create shareable link"
                 | Some savedForm_id =>
                     setFormId (Some savedForm_id) ;;
                     toast toast_success "Form generated successfully!"
                 end
           end)
          (fun _ =>
             toast toast_error
                   "An error occurred while generating the form"))
       (setIsGenerating false))%js.

Definition handleClarificationSubmit (cl : State)
    (answers : list jsstring) : M State unit :=
  (let updatedDescription :=
     description cl ++ nl ++ nl ++ JS "Clarifications:" ++ nl
       ++ join nl answers in
   setDescription updatedDescription ;;
   setShowClarification false ;;
   setFormSchema None ;;
   (* Auto-regenerate with clarifications *)
   setTimeout_generateForm cl)%js.

Definition handleFormReset : M State unit :=
  (setFormSchema None ;;
   setDescription [] ;;
   setFormId None)%js.

(** The oldest pending timer fires: its callback runs [generateForm] of
    the render in which the timer was set. *)
Definition fire_timer : M State unit :=
  fun w =>
    match timers w with
    | [] => (Return tt, w)
    | cl :: rest =>
        generateForm cl (mkWorld (state w) (effects w) rest)
    end.

End Handlers.

(** *** What the component renders *)

(** The "Generate Form" button: [disabled={isGenerating ||
    !description.trim()}]. *)
Definition generateDisabled (s : State) : bool :=
  isGenerating s || negb (truthy (trim (description s))).

(** The preview panel: [formSchema?.type === 'form' ? <DynamicForm .../> :
    <placeholder/>]. *)
Inductive Preview : Type :=
| PreviewForm (schema : Schema.t)
| PreviewPlaceholder.

Definition preview (s : State) : Preview :=
  match formSchema s with
  | Some schema =>
      if Schema.tag_eqb (Schema.type schema) Schema.form
      then PreviewForm schema
      else PreviewPlaceholder
  | None => PreviewPlaceholder
  end.

(** The dialog: [formSchema?.type === 'clarification' &&
    <ClarificationDialog open={showClarification}
       contradiction={formSchema.contradiction || ""}
       questions={formSchema.questions || []} .../>]. *)
Record DialogProps : Type := mkDialog {
  open : bool;
  contradiction : jsstring;
  questions : list jsstring
}.

Definition dialog (s : State) : option DialogProps :=
  match formSchema s with
  | Some schema =>
      if Schema.tag_eqb (Schema.type schema) Schema.clarification
      then Some (mkDialog (showClarification s)
                          (prop_or (Schema.contradiction schema) [])
                          (default [] (Schema.questions schema)))
      else None
  | None => None
  end.

End FormBuilder.


(** ** Sample collaborators, for running the handlers on examples *)

(** A backend that accepts every request: the gateway answers [reply], a
    saved form gets the id [form-1]. *)
Definition accepting (reply : Schema.t) : Supabase := {|
  functions_invoke := fun _ => Data reply;
  forms_insert := fun _ _ _ => Data (JS "form-1");
  form_submissions_insert := fun _ _ _ => Data tt
|}.

(** A backend whose storage answers every insert with an error. *)
Definition refusing (reply : Schema.t) : Supabase := {|
  functions_invoke := fun _ => Data reply;
  forms_insert := fun _ _ _ => Error;
  form_submissions_insert := fun _ _ _ => Error
|}.

(** A schema of tag [form] with the given fields and nothing else. *)
Definition form_of (fields : list Field.t) : Schema.t :=
  Schema.mk Schema.form None None (Some fields) None None.

(** ** Sample fields *)

(** [{ id: "name", label: "Name", type: "text", required: true }] *)
Definition name_field : Field.t :=
  Field.mk (JS "name") (JS "Name") text None true None None.

(** [{ id: "email", label: "Email", type: "email", required: true }] *)
Definition email_field : Field.t :=
  Field.mk (JS "email") (JS "Email") email None true None None.

(** [{ id: "code", label: "Code", type: "text", required: false,
       validation: { pattern: "(" } }]: the pattern does not compile. *)
Definition code_field : Field.t :=
  Field.mk (JS "code") (JS "Code") text None false
           (Some (Validation.mk (Some (JS "(")) None)) None.

(** The form with the fields [name] and [email], submitted untouched: both
    required fields are reported missing. *)
Definition dispatch_submit_failed : World DynamicForm.State :=
  DynamicForm.dispatch (H := accepting (form_of [])) literalRegExp
    (form_of [name_field; email_field]) None DynamicForm.Submit
    (mkWorld DynamicForm.initial [] []).

(** ** The clarification scenario of the specification *)

(** The descriptions sent to the generation gateway, oldest first. *)
Definition gateway_requests (es : list Effect) : list jsstring :=
  flat_map (fun e => match e with
                     | FunctionsInvoke description => [description]
                     | _ => []
                     end) es.

Module Scenario.

Definition original : jsstring :=
  JS "anonymous feedback form with required phone number".

Definition question : jsstring :=
  JS "Should the form be anonymous or collect phone numbers?".

(** [{ type: "clarification", contradiction: "...", questions: [...] }] *)
Definition reply : Schema.t :=
  Schema.mk Schema.clarification None None None
            (Some (JS "...")) (Some [question]).

Definition answers : list jsstring := [JS "anonymous"].

(** The user has typed the description. *)
Definition typed : World FormBuilder.State :=
  mkWorld (FormBuilder.mkState original false None false None) [] [].

(** "Generate Form" is clicked; the gateway asks for a clarification. *)
Definition asked : World FormBuilder.State :=
  run (FormBuilder.generateForm (H := accepting reply) (state typed)) typed.

(** The user answers the question and continues. *)
Definition answered : World FormBuilder.State :=
  run (ClarificationDialog.handleSubmit [question] answers
         (FormBuilder.handleClarificationSubmit (state asked)))
      asked.

(** A tenth of a second later the timer fires. *)
Definition resubmitted : World FormBuilder.State :=
  run (FormBuilder.fire_timer (H := accepting reply)) answered.

End Scenario.

(** A gateway reply with tag [form] that lacks [title] and [fields] and
    carries the fields of a clarification.  The interface allows it, and so
    does the tool schema of the gateway, which requires [type] only. *)
Definition mixed_reply : Schema.t :=
  Schema.mk Schema.form None None None
            (Some (JS "anonymous and phone")) (Some [JS "Which one?"]).

(** ** The language of a regular expression

    What the strings are that a term of [Regex.t] denotes, in the usual
    sense; [Regex.test] is shown below to decide it. *)
Inductive RegexMatches : Regex.t -> list N -> Prop :=
| MatchEps : RegexMatches Regex.Eps []
| MatchClass p c : p c = true -> RegexMatches (Regex.Class p) [c]
| MatchSeq r1 r2 s1 s2 :
    RegexMatches r1 s1 -> RegexMatches r2 s2 ->
    RegexMatches (Regex.Seq r1 r2) (s1 ++ s2)
| MatchAltL r1 r2 s : RegexMatches r1 s -> RegexMatches (Regex.Alt r1 r2) s
| MatchAltR r1 r2 s : RegexMatches r2 s -> RegexMatches (Regex.Alt r1 r2) s
| MatchStarNil r : RegexMatches (Regex.Star r) []
| MatchStarCons r s1 s2 :
    RegexMatches r s1 -> RegexMatches (Regex.Star r) s2 ->
    RegexMatches (Regex.Star r) (s1 ++ s2).

(** ** More of what [FormBuilder] renders *)

(** The "Copy Link" button: [formSchema?.type === 'form' && formId]. *)
Definition copyLinkVisible (s : FormBuilder.State) : bool :=
  match FormBuilder.formSchema s with
  | Some schema =>
      Schema.tag_eqb (Schema.type schema) Schema.form
      && truthy (default [] (FormBuilder.formId s))
  | None => false
  end.

(** ** [SharedForm]: loading a saved form by its identifier

    [fetchForm], the effect of the page, is embedded as the sequence of
    actions it performs, in order: the query it sends, the toasts it shows and
    the state setters it calls.  ([console] output is left out.) *)
Module SharedForm.

(** The row of [forms] as far as the page reads it: [data.schema] and
    [data.accepting_responses] (a nullable boolean column). *)
Record Row : Type := mkRow {
  schema : Schema.t;
  accepting_responses : option bool
}.

Record State : Type := mkState {
  formSchema : option Schema.t;
  isLoading : bool
}.

Definition initial : State := mkState None true.

Inductive Action : Type :=
| Select (id : jsstring)          (* from('forms').select('*').eq('id', id)
                                      .maybeSingle() *)
| ToastError (msg : jsstring)
| SetFormSchema (schema : Schema.t)
| SetIsLoading (b : bool).

Section Fetch.

(** The reply to the query: the row, no row, an error, or a rejection. *)
Variable forms_select : jsstring -> Reply (option Row).

(** [id] is the route parameter, [useParams<{ id: string }>().id]. *)
Definition fetchForm (id : option jsstring) : list Action :=
  if negb (truthy (default [] id))
  then [ToastError (JS "Invalid form link"); SetIsLoading false]
  else
    (* try *)
    (Select (default [] id)
     :: match forms_select (default [] id) with
        | Error => [ToastError (JS "Failed to load form")]
        | Data None => [ToastError (JS "Form not found")]
        | Data (Some data) =>
            (if negb (default false (accepting_responses data))
             then [ToastError
                     (JS "This form is no longer accepting responses")]
             else [])
            ++ [SetFormSchema (schema data)]
        | Rejected =>
            (* catch *)
            [ToastError (JS "An error occurred while loading the form")]
        end)
    (* finally *)
    ++ [SetIsLoading false].

End Fetch.

Definition perform (s : State) (a : Action) : State :=
  match a with
  | SetFormSchema schema => mkState (Some schema) (isLoading s)
  | SetIsLoading b => mkState (formSchema s) b
  | Select _ | ToastError _ => s
  end.

(** The state after the actions. *)
Definition after (actions : list Action) (s : State) : State :=
  fold_left perform actions s.

Definition queries (actions : list Action) : list jsstring :=
  flat_map (fun a => match a with Select id => [id] | _ => [] end) actions.

Definition toasts (actions : list Action) : list jsstring :=
  flat_map (fun a => match a with ToastError msg => [msg] | _ => [] end)
           actions.

(** What the page shows: the spinner while loading, the "Form Not Found"
    card without a schema, else the form, to which the route parameter is
    passed as [formId]. *)
Inductive View : Type :=
| Spinner
| NotFound
| Form (schema : Schema.t) (formId : option jsstring).

Definition view (id : option jsstring) (s : State) : View :=
  if isLoading s then Spinner
  else match formSchema s with
       | None => NotFound
       | Some schema => Form schema id
       end.

End SharedForm.

(** ** The edge function [generate-form]

    The handler passed to [Deno.serve] in
    [supabase/functions/generate-form/index.ts], which [generateForm]
    reaches through [supabase.functions.invoke].  It is embedded as a
    function of the request, the environment and the reply of the AI
    gateway, and yields the calls made to the gateway together with the
    response.  ([console] output is left out; of the request sent to the
    gateway, the [Authorization] header and the user message are kept, the
    rest being constant.) *)
From Stdlib Require DecimalString.

Module GenerateFormFunction.

(** A thrown value: an [Error] with its message, or something else. *)
Inductive Thrown : Type :=
| ErrorWith (message : jsstring)
| NotAnError.

(** An awaited or evaluated expression: its value, or what it throws. *)
Inductive Outcome (A : Type) : Type :=
| Got (a : A)
| Threw (t : Thrown).
Arguments Got {A} a.
Arguments Threw {A} t.

(** [req.method], and [const { description } = await req.json()]. *)
Record Request : Type := mkRequest {
  method : jsstring;
  json : Outcome (option jsstring)
}.

(** The call [fetch('https://ai.gateway.lovable.dev/v1/chat/completions',
    ...)]: the [Authorization] header and the content of the user message. *)
Record FetchRequest : Type := mkFetch {
  authorization : jsstring;
  content : option jsstring
}.

Section Serve.

(** The value that [JSON.parse] makes of the arguments of the tool call. *)
Variable value : Type.

(** What the body of a successful gateway response leads to:
    [response.json()], the path [data.choices[0]?.message?.tool_calls?.[0]],
    [toolCall.function.arguments] or [JSON.parse] throws; or there is no tool
    call; or the arguments parse to a value. *)
Inductive Completion : Type :=
| Unreadable (t : Thrown)
| NoToolCall
| ToolCall (formSchema : value).

(** The reply to [fetch]: a rejection, or a response with its status, the
    outcome of [response.text()], and what its body leads to. *)
Inductive FetchReply : Type :=
| Failed (t : Thrown)
| Responded (status : N) (response_text : Outcome jsstring)
    (completion : Completion).

(** The body handed to [new Response]: [null], [JSON.stringify({ error })]
    or [JSON.stringify(formSchema)]. *)
Inductive Body : Type :=
| NoBody
| ErrorJson (error : jsstring)
| SchemaJson (formSchema : value).

Record Response : Type := mkResponse {
  status : N;
  headers : list (jsstring * jsstring);
  body : Body
}.

Definition corsHeaders : list (jsstring * jsstring) :=
  [(JS "Access-Control-Allow-Origin", JS "*");
   (JS "Access-Control-Allow-Headers",
    JS "authorization, x-client-info, apikey, content-type")].

(** [{ ...corsHeaders, 'Content-Type': 'application/json' }] *)
Definition jsonHeaders : list (jsstring * jsstring) :=
  corsHeaders ++ [(JS "Content-Type", JS "application/json")].

(** [response.ok]: the status is in the range 200 to 299. *)
Definition ok (status : N) : bool :=
  ((200 <=? status) && (status <=? 299))%N.

(** A status in a template literal: its decimal digits. *)
Definition Number_toString (n : N) : jsstring :=
  JS (DecimalString.NilZero.string_of_uint (N.to_uint n)).

(** [Deno.env.get('LOVABLE_API_KEY')] *)
Variable LOVABLE_API_KEY : option jsstring.

Variable fetch : FetchRequest -> FetchReply.

(** The [try] block: the calls it makes, and the response it returns or the
    value it throws. *)
Definition attempt (req : Request)
  : list FetchRequest * Outcome Response :=
  match json req with
  | Threw t => ([], Threw t)
  | Got description =>
      if negb (truthy (default [] LOVABLE_API_KEY))
      then ([], Threw (ErrorWith (JS "LOVABLE_API_KEY is not configured")))
      else
        let request :=
          mkFetch (JS "Bearer " ++ default [] LOVABLE_API_KEY) description in
        ([request],
         match fetch request with
         | Failed t => Threw t
         | Responded status response_text completion =>
             if negb (ok status)
             then
               match response_text with
               | Threw t => Threw t
               | Got errorText =>
                   if (status =? 429)%N
                   then Got (mkResponse 429 jsonHeaders
                               (ErrorJson (JS "Rate limit exceeded. Please try again in a moment.")))
                   else if (status =? 402)%N
                   then Got (mkResponse 402 jsonHeaders
                               (ErrorJson (JS "AI service requires additional credits. Please contact support.")))
                   else Threw (ErrorWith
                                 (JS "AI API returned " ++ Number_toString status
                                    ++ JS ": " ++ errorText))
               end
             else
               match completion with
               | Unreadable t => Threw t
               | NoToolCall =>
                   Threw (ErrorWith (JS "No tool call in AI response"))
               | ToolCall formSchema =>
                   Got (mkResponse 200 jsonHeaders (SchemaJson formSchema))
               end
         end)
  end.

Definition serve (req : Request) : list FetchRequest * Response :=
  if bool_decide (method req = JS "OPTIONS")
  then ([], mkResponse 200 corsHeaders NoBody)
  else
    match attempt req with
    | (calls, Got response) => (calls, response)
    | (calls, Threw t) =>
        (* catch *)
        (calls,
         mkResponse 500 jsonHeaders
           (ErrorJson (match t with
                       | ErrorWith message => message
                       | NotAnError => JS "Unknown error occurred"
                       end)))
    end.

End Serve.

Arguments Unreadable {value} t.
Arguments NoToolCall {value}.
Arguments ToolCall {value} formSchema.
Arguments Failed {value} t.
Arguments Responded {value} status response_text completion.
Arguments NoBody {value}.
Arguments ErrorJson {value} error.
Arguments SchemaJson {value} formSchema.
Arguments mkResponse {value} status headers body.
Arguments status {value} _.
Arguments headers {value} _.
Arguments body {value} _.

End GenerateFormFunction.

(** ** The props that the two pages pass to [DynamicForm] *)

(** [FormBuilder]: [<DynamicForm schema={formSchema}
    onReset={handleFormReset} />], without [formId]. *)
Definition builder_form_props (s : FormBuilder.State)
  : option (Schema.t * option jsstring) :=
  match FormBuilder.preview s with
  | FormBuilder.PreviewForm schema => Some (schema, None)
  | FormBuilder.PreviewPlaceholder => None
  end.

(** [SharedForm]: [<DynamicForm schema={formSchema} onReset={handleReset}
    formId={id} />]. *)
Definition shared_form_props (id : option jsstring) (s : SharedForm.State)
  : option (Schema.t * option jsstring) :=
  match SharedForm.view id s with
  | SharedForm.Form schema formId => Some (schema, formId)
  | _ => None
  end.

(** ** [renderField] of [DynamicForm] *)




(** * Properties *)

(** ** Tactics

    [step_form] and [step_builder] run the monadic operations of a handler
    of [DynamicForm], respectively [FormBuilder], down to worlds. *)

Ltac step_monad :=
  unfold try_finally, try_catch, await, bind, lift, toast, emit, ret, throw,
    modify.

Ltac step_form :=
  unfold DynamicForm.setIsSubmitting, DynamicForm.setSubmitted,
    DynamicForm.setFormData, DynamicForm.setErrors;
  step_monad; simpl.

Ltac step_builder :=
  unfold FormBuilder.setIsGenerating, FormBuilder.setFormSchema,
    FormBuilder.setShowClarification, FormBuilder.setFormId,
    FormBuilder.setDescription;
  step_monad; simpl.

(** ** The built-in regular expressions *)

Example email_ok : Regex.test emailRegex (JS "a@b.com") = true.
Proof. reflexivity. Qed.
Example email_ko : Regex.test emailRegex (JS "not-an-email") = false.
Proof. reflexivity. Qed.
Example phone_ok : Regex.test phoneRegex (JS "+1 (555) 010-9999") = true.
Proof. reflexivity. Qed.

(** ** Strings *)

Lemma trimStart_blank (s : jsstring) :
  blank s = true -> trimStart s = [].
Proof.
  induction s as [|c s IH]; simpl; [reflexivity|].
  intros [Hc Hs]%andb_prop. rewrite Hc. auto.
Qed.

Lemma trimStart_nil_blank (s : jsstring) :
  trimStart s = [] -> blank s = true.
Proof.
  induction s as [|c s IH]; simpl; [reflexivity|].
  destruct (isWhiteSpace c); [auto | discriminate].
Qed.

(** What [trimStart] leaves is empty or starts with a visible character. *)
Lemma trimStart_head (s : jsstring) :
  match trimStart s with
  | [] => True
  | c :: _ => isWhiteSpace c = false
  end.
Proof.
  induction s as [|c s IH]; simpl; [exact I|].
  destruct (isWhiteSpace c) eqn:Hc; [exact IH | exact Hc].
Qed.

Lemma blank_rev (s : jsstring) : blank (rev s) = blank s.
Proof.
  unfold blank. induction s as [|c s IH]; simpl; [reflexivity|].
  rewrite forallb_app, IH. simpl. rewrite andb_true_r. apply andb_comm.
Qed.

(** [value.trim()] is the empty string exactly for the empty and the
    whitespace-only strings. *)
Lemma trim_nil_iff (s : jsstring) : trim s = [] <-> blank s = true.
Proof.
  unfold trim, trimEnd. split.
  - intros Ht.
    assert (Hr : trimStart (rev (trimStart s)) = []).
    { destruct (trimStart (rev (trimStart s))) as [|x l]; [reflexivity|].
      simpl in Ht. destruct (rev l); discriminate. }
    apply trimStart_nil_blank in Hr. rewrite blank_rev in Hr.
    pose proof (trimStart_head s) as Hh.
    destruct (trimStart s) as [|c t] eqn:Es.
    + now apply trimStart_nil_blank.
    + simpl in Hr. rewrite Hh in Hr. discriminate.
  - intros Hb. now rewrite (trimStart_blank s Hb).
Qed.

Lemma truthy_trim (s : jsstring) : truthy (trim s) = negb (blank s).
Proof.
  destruct (blank s) eqn:Hb.
  - apply trim_nil_iff in Hb. now rewrite Hb.
  - destruct (trim s) eqn:Ht; [|reflexivity].
    apply trim_nil_iff in Ht. congruence.
Qed.

Lemma blank_not_truthy_trim (s : jsstring) :
  blank s = true -> truthy (trim s) = false.
Proof. intros Hb. now rewrite truthy_trim, Hb. Qed.

Lemma truthy_or_else (a b : jsstring) :
  truthy b = true -> truthy (or_else a b) = true.
Proof. unfold or_else. now destruct (truthy a) eqn:Ha. Qed.

Lemma truthy_app_r (a b : jsstring) :
  truthy b = true -> truthy (a ++ b) = true.
Proof. destruct a, b; simpl; congruence. Qed.

(** ** The field validator *)

Section ValidatorFacts.

Variable RegExp : jsstring -> option (jsstring -> bool).

Lemma validateField_builtin (field : Field.t) (value : jsstring) :
  truthy value = true ->
  (Field.required field = false \/ blank value = false) ->
  truthy (Field.validation_pattern field) = false ->
  validateField RegExp field value
  = builtin_verdict (Field.type field) value.
Proof.
  intros Hv Hreq Hp. unfold validateField, builtin_verdict.
  rewrite truthy_trim, Hv, Hp. simpl.
  assert (Field.required field && negb (negb (blank value)) = false) as ->.
  { destruct Hreq as [-> | ->]; [reflexivity | apply andb_false_r]. }
  simpl.
  destruct (Field.type field); simpl;
    repeat match goal with |- context [Regex.test ?r ?v] =>
             destruct (Regex.test r v) end; reflexivity.
Qed.

(** Every message the validator returns is a non-empty string. *)
Lemma validateField_message_truthy (field : Field.t) (value msg : jsstring) :
  validateField RegExp field value = Return (Some msg) ->
  truthy msg = true.
Proof.
  unfold validateField, and_then, falls_through.
  destruct (Field.required field && negb (truthy (trim value))).
  { intros [= <-]. now apply truthy_app_r. }
  destruct (truthy value && truthy (Field.validation_pattern field)).
  - destruct (RegExp (Field.validation_pattern field)) as [regex|];
      [|discriminate].
    destruct (negb (regex value)).
    { intros [= <-]. now apply truthy_or_else. }
    destruct (truthy value && FieldType_eqb (Field.type field) email);
      [destruct (negb (Regex.test emailRegex value));
       [now intros [= <-]|]|];
      (destruct (truthy value && FieldType_eqb (Field.type field) tel);
       [destruct (negb (Regex.test phoneRegex value));
        [now intros [= <-]|discriminate]|discriminate]).
  - destruct (truthy value && FieldType_eqb (Field.type field) email);
      [destruct (negb (Regex.test emailRegex value));
       [now intros [= <-]|]|];
      (destruct (truthy value && FieldType_eqb (Field.type field) tel);
       [destruct (negb (Regex.test phoneRegex value));
        [now intros [= <-]|discriminate]|discriminate]).
Qed.

End ValidatorFacts.

(** C7.  A required field whose raw value is empty or whitespace-only is
    rejected with "<label> is required".  The required check is the first
    statement of the validator: the verdict is the same whatever the field's
    type, custom pattern and message are, and whatever the engine makes of the
    pattern (the pattern is not even compiled). *)
Theorem validateField_required_blank
    (RegExp : jsstring -> option (jsstring -> bool))
    (field : Field.t) (value : jsstring) :
  Field.required field = true ->
  blank value = true ->
  validateField RegExp field value
  = Return (Some (Field.label field ++ JS " is required")).
Proof.
  intros Hreq Hb. unfold validateField.
  now rewrite Hreq, (blank_not_truthy_trim value Hb).
Qed.

Lemma validateField_required_blank_witness :
  validateField (fun _ => None)
    (Field.mk (JS "phone") (JS "Phone") tel None true
       (Some (Validation.mk (Some (JS "(")) (Some (JS "Digits only")))) None)
    (JS "   ")
  = Return (Some (JS "Phone is required")).
Proof.
  apply (validateField_required_blank (fun _ => None)
           (Field.mk (JS "phone") (JS "Phone") tel None true
              (Some (Validation.mk (Some (JS "(")) (Some (JS "Digits only"))))
              None)
           (JS "   ")); reflexivity.
Defined.

(** C1, as the specification words it: with a custom pattern, a non-empty
    value that matches is accepted whatever the field's type, and one that
    does not match is rejected with the custom message, else with
    "Invalid <label>".  The validator does not behave so: the built-in check
    of the type runs after a successful pattern check.  An e-mail field with
    pattern [example] rejects the matching value [example]. *)
Lemma custom_pattern_does_not_supersede_builtin :
  ~ (forall (field : Field.t) (v : Validation.t) (p value : jsstring)
            (regex : jsstring -> bool),
        Field.validation field = Some v ->
        Validation.pattern v = Some p ->
        literalRegExp p = Some regex ->
        value <> [] ->
        validateField literalRegExp field value
        = if regex value then Return None
          else Return (Some (default (JS "Invalid " ++ Field.label field)
                                     (Validation.message v)))).
Proof.
  intros Hclaim.
  specialize (Hclaim
    (Field.mk (JS "contact") (JS "Contact") email None false
       (Some (Validation.mk (Some (JS "example")) None)) None)
    (Validation.mk (Some (JS "example")) None)
    (JS "example") (JS "example") (includes (JS "example"))
    eq_refl eq_refl eq_refl).
  assert (Hne : JS "example" <> []) by discriminate.
  specialize (Hclaim Hne). vm_compute in Hclaim. discriminate.
Qed.

(** The two other places where the validator departs from C1 as worded. *)

(** A required field sees a whitespace-only value as missing before the
    pattern is looked at. *)
Example custom_pattern_after_required :
  validateField literalRegExp
    (Field.mk (JS "code") (JS "Code") text None true
       (Some (Validation.mk (Some (JS "abc")) (Some (JS "Three letters")))) None)
    (JS " ")
  = Return (Some (JS "Code is required")).
Proof. reflexivity. Qed.

(** An empty custom message counts as no message. *)
Example custom_pattern_empty_message :
  validateField literalRegExp
    (Field.mk (JS "code") (JS "Code") text None false
       (Some (Validation.mk (Some (JS "abc")) (Some []))) None)
    (JS "xyz")
  = Return (Some (JS "Invalid Code")).
Proof. reflexivity. Qed.

(** C1, amended.  For a field with a non-empty custom pattern that compiles
    and a non-empty value that the required check lets through: a value that
    does not match is rejected with the custom message when there is a
    non-empty one, else with "Invalid <label>"; a value that matches is then
    subjected to the built-in check of the field's type, which rejects an
    ill-formed e-mail address or telephone number and accepts otherwise. *)
Theorem validateField_custom_pattern
    (RegExp : jsstring -> option (jsstring -> bool))
    (field : Field.t) (value : jsstring) (regex : jsstring -> bool) :
  truthy (Field.validation_pattern field) = true ->
  RegExp (Field.validation_pattern field) = Some regex ->
  truthy value = true ->
  (Field.required field = false \/ blank value = false) ->
  validateField RegExp field value
  = if regex value
    then match Field.type field with
         | email =>
             if Regex.test emailRegex value then Return None
             else Return (Some (JS "Invalid email address"))
         | tel =>
             if Regex.test phoneRegex value then Return None
             else Return (Some (JS "Invalid phone number"))
         | _ => Return None
         end
    else Return (Some (or_else (Field.validation_message field)
                               (JS "Invalid " ++ Field.label field))).
Proof.
  intros Hp Hre Hv Hreq. unfold validateField.
  rewrite truthy_trim, Hv, Hp, Hre. simpl.
  assert (Field.required field && negb (negb (blank value)) = false) as ->.
  { destruct Hreq as [-> | ->]; [reflexivity | apply andb_false_r]. }
  simpl. destruct (regex value); simpl; [|reflexivity].
  destruct (Field.type field); simpl;
    repeat match goal with |- context [Regex.test ?r ?v] =>
             destruct (Regex.test r v) end; reflexivity.
Qed.

Lemma validateField_custom_pattern_witness :
  validateField literalRegExp
    (Field.mk (JS "contact") (JS "Contact") email None false
       (Some (Validation.mk (Some (JS "example")) None)) None)
    (JS "me@example.org")
  = Return None.
Proof.
  apply (validateField_custom_pattern literalRegExp
           (Field.mk (JS "contact") (JS "Contact") email None false
              (Some (Validation.mk (Some (JS "example")) None)) None)
           (JS "me@example.org") (includes (JS "example")));
    [reflexivity | reflexivity | reflexivity | left; reflexivity].
Defined.

(** ** The submission pipeline *)

Section SubmitFacts.

Variable RegExp : jsstring -> option (jsstring -> bool).
Context `{Supabase}.
Variable schema : Schema.t.
Variable formId : option jsstring.

Import DynamicForm.

Lemma answer_absent (formData : gmap jsstring jsstring) (field : Field.t) :
  formData !! Field.id field = None -> answer formData field = [].
Proof. unfold answer. now intros ->. Qed.


(** Every message the loop stores is non-empty. *)
Lemma forEach_validate_truthy (formData : gmap jsstring jsstring)
    (fields : list Field.t) (acc newErrors : gmap jsstring jsstring) :
  (forall k m, acc !! k = Some m -> truthy m = true) ->
  forEach fields (validate_into RegExp formData) acc = Return newErrors ->
  forall k m, newErrors !! k = Some m -> truthy m = true.
Proof.
  revert acc. induction fields as [|f fs IH]; intros acc Hacc; simpl.
  - intros [= <-]. exact Hacc.
  - unfold validate_into at 1.
    destruct (validateField RegExp f (answer formData f))
      as [[msg|]|e] eqn:Hf; [| |discriminate].
    + destruct (truthy msg) eqn:Hm; apply IH; [|exact Hacc].
      intros k m. destruct (decide (Field.id f = k)) as [<-|Hne].
      * rewrite lookup_insert_eq. now intros [= <-].
      * rewrite lookup_insert_ne by exact Hne. apply Hacc.
    + apply IH. exact Hacc.
Qed.

(** The three ways [handleSubmit] can go. *)

Lemma handleSubmit_throws (cl : State) (w : World State) (e : exn) :
  forEach (default [] (Schema.fields schema))
          (validate_into RegExp (formData cl)) empty = Throw e ->
  handleSubmit RegExp schema formId cl w = (Throw e, w).
Proof.
  intros Hv. unfold handleSubmit, bind, lift. now rewrite Hv.
Qed.

Lemma handleSubmit_invalid (cl : State) (w : World State)
    (newErrors : gmap jsstring jsstring) :
  forEach (default [] (Schema.fields schema))
          (validate_into RegExp (formData cl)) empty = Return newErrors ->
  size newErrors <> 0 ->
  handleSubmit RegExp schema formId cl w
  = (Return tt,
     mkWorld (mkState (formData (state w)) newErrors
                      (isSubmitting (state w)) (submitted (state w)))
             (effects w ++ [Toast toast_error
                              (JS "Please fix the errors in the form")])
             (timers w)).
Proof.
  intros Hv Hsz. unfold handleSubmit, bind, lift. rewrite Hv.
  destruct (Nat.eqb_spec (size newErrors) 0) as [|_]; [contradiction|].
  reflexivity.
Qed.

Lemma handleSubmit_valid (cl : State) (w : World State)
    (newErrors : gmap jsstring jsstring) :
  forEach (default [] (Schema.fields schema))
          (validate_into RegExp (formData cl)) empty = Return newErrors ->
  size newErrors = 0 ->
  let form_title := prop_or (Schema.title schema) (JS "Untitled Form") in
  let form_id := match formId with
                 | Some i => if truthy i then Some i else None
                 | None => None
                 end in
  handleSubmit RegExp schema formId cl w
  = (Return tt,
     match form_submissions_insert form_title (formData cl) form_id with
     | Data _ =>
         mkWorld (mkState empty empty false true)
           (effects w
              ++ [SubmissionsInsert form_title (formData cl) form_id]
              ++ [Toast toast_success (JS "Form submitted successfully!")])
           (timers w)
     | _ =>
         mkWorld (mkState (formData (state w)) (errors (state w)) false
                          (submitted (state w)))
           (effects w
              ++ [SubmissionsInsert form_title (formData cl) form_id]
              ++ [Toast toast_error
                    (JS "Failed to submit form. Please try again.")])
           (timers w)
     end).
Proof.
  intros Hv Hsz. unfold handleSubmit, bind, lift. rewrite Hv, Hsz. simpl.
  step_form.
  destruct (form_submissions_insert _ _ _); simpl;
    rewrite <- ?app_assoc; reflexivity.
Qed.

End SubmitFacts.

Section SubmitClaims.

Variable RegExp : jsstring -> option (jsstring -> bool).
Context `{Supabase}.
Variable schema : Schema.t.
Variable formId : option jsstring.

Import DynamicForm.

Lemma forEach_all_pass (formData : gmap jsstring jsstring)
    (fields : list Field.t) (acc : gmap jsstring jsstring) :
  (forall field, In field fields ->
     validateField RegExp field (answer formData field) = Return None) ->
  forEach fields (validate_into RegExp formData) acc = Return acc.
Proof.
  induction fields as [|f fs IH]; intros Hall; simpl; [reflexivity|].
  unfold validate_into at 1. rewrite (Hall f) by now left.
  apply IH. intros field Hin. apply Hall. now right.
Qed.


(** C5.  When every field passes and the storage collaborator does not
    accept the insert (it answers with an error, or the call is rejected),
    [handleSubmit] leaves the answers, the errors and the [submitted] flag
    as they were and reports "Failed to submit form. Please try again.",
    which is not the report of a validation failure. *)
Theorem handleSubmit_insert_failure_keeps_answers
    (cl : State) (w : World State) :
  let form_title := prop_or (Schema.title schema) (JS "Untitled Form") in
  let form_id := match formId with
                 | Some i => if truthy i then Some i else None
                 | None => None
                 end in
  (forall field, In field (default [] (Schema.fields schema)) ->
     validateField RegExp field (answer (formData cl) field)
     = Return None) ->
  form_submissions_insert form_title (formData cl) form_id <> Data tt ->
  let w' := run (handleSubmit RegExp schema formId cl) w in
  formData (state w') = formData (state w)
  /\ errors (state w') = errors (state w)
  /\ submitted (state w') = submitted (state w)
  /\ isSubmitting (state w') = false
  /\ effects w'
     = effects w
         ++ [SubmissionsInsert form_title (formData cl) form_id;
             Toast toast_error
               (JS "Failed to submit form. Please try again.")]
  /\ JS "Failed to submit form. Please try again."
     <> JS "Please fix the errors in the form".
Proof.
  intros form_title form_id Hpass Hfail w'. subst w'. unfold run.
  rewrite (handleSubmit_valid RegExp schema formId cl w empty).
  - fold form_title form_id. simpl.
    destruct (form_submissions_insert form_title (formData cl) form_id)
      as [[]| |]; [contradiction| |]; simpl; repeat split; discriminate.
  - now apply forEach_all_pass.
  - apply map_size_empty.
Qed.

End SubmitClaims.

(** C4, on a schema with a pattern that does not compile.  The field
    [name] fails, but the validator throws on the field [code]: the loop is
    abandoned, [handleSubmit] ends with the exception and the state is as
    before, with no error stored for [name]. *)
Theorem handleSubmit_bad_pattern_stores_no_error :
  let cl := DynamicForm.mkState {[ JS "code" := JS "x" ]} empty false false in
  let w := mkWorld cl [] [] in
  validateField literalRegExp name_field
    (DynamicForm.answer (DynamicForm.formData cl) name_field)
  = Return (Some (JS "Name is required"))
  /\ validateField literalRegExp code_field
       (DynamicForm.answer (DynamicForm.formData cl) code_field)
     = Throw SyntaxError
  /\ DynamicForm.handleSubmit (H := accepting (form_of [])) literalRegExp
       (form_of [name_field; code_field]) None cl w
     = (Throw SyntaxError, w)
  /\ DynamicForm.errors
       (state (run (DynamicForm.handleSubmit (H := accepting (form_of []))
                      literalRegExp (form_of [name_field; code_field])
                      None cl) w))
     !! JS "name" = None.
Proof.
  intros cl w. repeat split; reflexivity.
Qed.


Lemma handleSubmit_insert_failure_keeps_answers_witness :
  let cl := DynamicForm.mkState (<[JS "email" := JS "a@b.com"]> empty) empty
                                false false in
  let w' := run (DynamicForm.handleSubmit (H := refusing (form_of []))
                   literalRegExp (form_of [email_field]) None cl)
                (mkWorld cl [] []) in
  DynamicForm.formData (state w') = <[JS "email" := JS "a@b.com"]> empty
  /\ effects w'
     = [SubmissionsInsert (JS "Untitled Form")
          (<[JS "email" := JS "a@b.com"]> empty) None;
        Toast toast_error (JS "Failed to submit form. Please try again.")].
Proof.
  intros cl w'.
  destruct (handleSubmit_insert_failure_keeps_answers literalRegExp
              (H := refusing (form_of []))
              (form_of [email_field]) None cl (mkWorld cl [] []))
    as (Hdata & _ & _ & _ & Heff & _).
  - intros field [<-|[]]. reflexivity.
  - discriminate.
  - split; [exact Hdata | exact Heff].
Defined.

Section EmailScenario.

Variable RegExp : jsstring -> option (jsstring -> bool).
Context `{Supabase}.
Variable formId : option jsstring.

Import DynamicForm.

(** C8.  A schema whose single field has id [email], type [email], is
    required and has no custom pattern.  The answer [not-an-email] yields
    exactly the errors [{ email: "Invalid email address" }] and no insert;
    the answer [a@b.com] passes validation, and the submission (form
    title, answers, form id) is handed to the storage collaborator, whose
    acceptance makes the form submitted. *)
Theorem email_field_scenario (schema : Schema.t) (field : Field.t)
    (cl : State) (w : World State) :
  Schema.fields schema = Some [field] ->
  Field.id field = JS "email" ->
  Field.type field = email ->
  Field.required field = true ->
  truthy (Field.validation_pattern field) = false ->
  let form_title := prop_or (Schema.title schema) (JS "Untitled Form") in
  let form_id := match formId with
                 | Some i => if truthy i then Some i else None
                 | None => None
                 end in
  (formData cl = {[ JS "email" := JS "not-an-email" ]} ->
   handleSubmit RegExp schema formId cl w
   = (Return tt,
      mkWorld (mkState (formData (state w))
                       {[ JS "email" := JS "Invalid email address" ]}
                       (isSubmitting (state w)) (submitted (state w)))
              (effects w ++ [Toast toast_error
                               (JS "Please fix the errors in the form")])
              (timers w)))
  /\ (formData cl = {[ JS "email" := JS "a@b.com" ]} ->
      validateField RegExp field (answer (formData cl) field) = Return None
      /\ effects (run (handleSubmit RegExp schema formId cl) w)
         = effects w
             ++ [SubmissionsInsert form_title
                   {[ JS "email" := JS "a@b.com" ]} form_id;
                 Toast (match form_submissions_insert form_title
                                {[ JS "email" := JS "a@b.com" ]} form_id with
                        | Data _ => toast_success
                        | _ => toast_error
                        end)
                       (match form_submissions_insert form_title
                                {[ JS "email" := JS "a@b.com" ]} form_id with
                        | Data _ => JS "Form submitted successfully!"
                        | _ => JS "Failed to submit form. Please try again."
                        end)]
      /\ (form_submissions_insert form_title
            {[ JS "email" := JS "a@b.com" ]} form_id = Data tt ->
          submitted (state (run (handleSubmit RegExp schema formId cl) w))
          = true)).
Proof.
  intros Hfields Hid Hty Hreq Hpat form_title form_id.
  assert (Hval : forall value, truthy value = true -> blank value = false ->
            validateField RegExp field value
            = builtin_verdict email value).
  { intros value Hv Hb. rewrite <- Hty.
    apply validateField_builtin; auto. }
  split; intros Hdata.
  - apply handleSubmit_invalid; [|now rewrite map_size_singleton].
    rewrite Hfields, Hdata. simpl. unfold validate_into, answer.
    rewrite Hid, lookup_singleton_eq. simpl.
    rewrite Hval by reflexivity. reflexivity.
  - assert (Hpass : validateField RegExp field (answer (formData cl) field)
                    = Return None).
    { unfold answer. rewrite Hdata, Hid, lookup_singleton_eq. simpl.
      rewrite Hval by reflexivity. reflexivity. }
    split; [exact Hpass|].
    unfold run.
    rewrite (handleSubmit_valid RegExp schema formId cl w empty);
      [| rewrite Hfields; simpl; unfold validate_into; now rewrite Hpass
       | apply map_size_empty].
    fold form_title form_id. rewrite Hdata.
    destruct (form_submissions_insert form_title _ form_id) as [[]| |];
      simpl; (split; [reflexivity|]); intros; congruence.
Qed.

End EmailScenario.

Lemma email_field_scenario_witness :
  let bad := DynamicForm.mkState {[ JS "email" := JS "not-an-email" ]} empty
                                 false false in
  let good := DynamicForm.mkState {[ JS "email" := JS "a@b.com" ]} empty
                                  false false in
  DynamicForm.errors
    (state (run (DynamicForm.handleSubmit (H := accepting (form_of []))
                   literalRegExp (form_of [email_field]) None bad)
                (mkWorld bad [] [])))
  = {[ JS "email" := JS "Invalid email address" ]}
  /\ DynamicForm.submitted
       (state (run (DynamicForm.handleSubmit (H := accepting (form_of []))
                      literalRegExp (form_of [email_field]) None good)
                   (mkWorld good [] [])))
     = true.
Proof.
  intros bad good. split.
  - pose proof (email_field_scenario literalRegExp
                  (H := accepting (form_of []))
                  None (form_of [email_field]) email_field bad
                  (mkWorld bad [] [])
                  eq_refl eq_refl eq_refl eq_refl eq_refl) as [Hbad _].
    unfold run. now rewrite (Hbad eq_refl).
  - pose proof (email_field_scenario literalRegExp
                  (H := accepting (form_of []))
                  None (form_of [email_field]) email_field good
                  (mkWorld good [] [])
                  eq_refl eq_refl eq_refl eq_refl eq_refl) as [_ Hgood].
    destruct (Hgood eq_refl) as (_ & _ & Hsub). now apply Hsub.
Defined.

(** ** Editing a field *)

Section EditFacts.

Variable RegExp : jsstring -> option (jsstring -> bool).
Context `{Supabase}.
Variable schema : Schema.t.
Variable formId : option jsstring.

Import DynamicForm.

(** Only non-empty messages ever reach the [errors] state: [handleSubmit]
    stores an error only if it is truthy. *)
Lemma reachable_errors_truthy (w : World State) :
  reachable RegExp schema formId w ->
  forall k m, errors (state w) !! k = Some m -> truthy m = true.
Proof.
  induction 1 as [|ev w Hw IH].
  - simpl. intros k m Hk. now rewrite lookup_empty in Hk.
  - destruct ev as [fieldId value| |]; unfold dispatch, run.
    + unfold handleChange, bind, setFormData, setErrors, modify, ret. simpl.
      destruct (truthy (default [] (errors (state w) !! fieldId))); simpl.
      * intros k m [_ Hk]%lookup_delete_Some. eauto.
      * exact IH.
    + destruct (forEach (default [] (Schema.fields schema))
                  (validate_into RegExp (formData (state w))) empty)
        as [ne|e] eqn:Hv.
      * destruct (Nat.eq_dec (size ne) 0) as [Hsz|Hsz].
        -- rewrite (handleSubmit_valid RegExp schema formId _ w ne Hv Hsz).
           simpl. destruct (form_submissions_insert _ _ _); simpl;
             [intros k m Hk; now rewrite lookup_empty in Hk | exact IH
             | exact IH].
        -- rewrite (handleSubmit_invalid RegExp schema formId _ w ne Hv Hsz).
           simpl. eapply forEach_validate_truthy; [|exact Hv].
           intros k m Hk. now rewrite lookup_empty in Hk.
      * rewrite (handleSubmit_throws RegExp schema formId _ w e Hv).
        exact IH.
    + exact IH.
Qed.

(** C9.  In every state the form can be in, editing a field removes that
    field's entry from the errors and leaves every other entry as it was,
    and sets the answer of that field and of no other.  The handler is
    [handleChange] alone: it issues no effect and calls no validator. *)
Theorem handleChange_clears_own_error
    (w : World State) (fieldId value : jsstring) :
  reachable RegExp schema formId w ->
  let w' := dispatch RegExp schema formId (Change fieldId value) w in
  w' = run (handleChange (state w) fieldId value) w
  /\ errors (state w') !! fieldId = None
  /\ (forall k, k <> fieldId ->
        errors (state w') !! k = errors (state w) !! k)
  /\ formData (state w') !! fieldId = Some value
  /\ (forall k, k <> fieldId ->
        formData (state w') !! k = formData (state w) !! k)
  /\ effects w' = effects w.
Proof.
  intros Hw w'. subst w'. unfold dispatch, run.
  split; [reflexivity|].
  unfold handleChange, bind, setFormData, setErrors, modify, ret. simpl.
  destruct (errors (state w) !! fieldId) as [m|] eqn:He; simpl.
  - rewrite (reachable_errors_truthy w Hw fieldId m He). simpl.
    repeat split.
    + apply lookup_delete_eq.
    + intros k Hk. now apply lookup_delete_ne.
    + apply lookup_insert_eq.
    + intros k Hk. now apply lookup_insert_ne.
  - repeat split.
    + exact He.
    + apply lookup_insert_eq.
    + intros k Hk. now apply lookup_insert_ne.
Qed.

End EditFacts.

(** An errors object with an empty message cannot arise; if it could,
    [handleChange] would leave the empty entry in place. *)
Example handleChange_keeps_empty_message :
  let s := DynamicForm.mkState empty {[ JS "name" := [] ]} false false in
  DynamicForm.errors
    (state (run (DynamicForm.handleChange s (JS "name") (JS "A"))
                (mkWorld s [] [])))
  = {[ JS "name" := [] ]}.
Proof. reflexivity. Qed.

Lemma handleChange_clears_own_error_witness :
  let sb := accepting (form_of []) in
  let schema := form_of [name_field; email_field] in
  let w := dispatch_submit_failed in
  DynamicForm.errors (state w) !! JS "name" = Some (JS "Name is required")
  /\ DynamicForm.errors
       (state (DynamicForm.dispatch (H := sb) literalRegExp schema None
                 (DynamicForm.Change (JS "name") (JS "Ada")) w))
     !! JS "name" = None
  /\ DynamicForm.errors
       (state (DynamicForm.dispatch (H := sb) literalRegExp schema None
                 (DynamicForm.Change (JS "name") (JS "Ada")) w))
     !! JS "email" = Some (JS "Email is required").
Proof.
  intros sb schema w.
  destruct (handleChange_clears_own_error literalRegExp (H := sb) schema None
              w (JS "name") (JS "Ada")) as (_ & Hown & Hother & _).
  - unfold w, dispatch_submit_failed. apply DynamicForm.reachable_step.
    apply DynamicForm.reachable_initial.
  - split; [reflexivity|]. split; [exact Hown|].
    rewrite Hother by discriminate. reflexivity.
Defined.

(** ** Generation and the clarification loop *)

Section BuilderFacts.

Context `{Supabase}.

Import FormBuilder.

(** C10.  With an empty or whitespace-only description, [generateForm]
    returns after the toast: it sends nothing to the generation gateway and
    leaves the whole state, the form schema and the form id included, as it
    was.  The button that triggers it is disabled on such a description. *)
Theorem generateForm_blank_description (cl : State) (w : World State) :
  blank (description cl) = true ->
  let w' := run (generateForm cl) w in
  state w' = state w
  /\ effects w'
     = effects w ++ [Toast toast_error
                       (JS "Please describe the form you want to create")]
  /\ gateway_requests (effects w') = gateway_requests (effects w)
  /\ generateDisabled cl = true.
Proof.
  intros Hb w'. subst w'. unfold run, generateForm, generateDisabled.
  rewrite (blank_not_truthy_trim _ Hb). simpl.
  repeat split.
  - unfold gateway_requests. rewrite flat_map_app. simpl.
    apply app_nil_r.
  - apply orb_true_r.
Qed.

(** With a description that is not blank, [generateForm] sends exactly one
    request, carrying the description of its closure. *)
Lemma generateForm_requests (cl : State) (w : World State) :
  blank (description cl) = false ->
  gateway_requests (effects (run (generateForm cl) w))
  = gateway_requests (effects w) ++ [description cl].
Proof.
  intros Hb. unfold run, generateForm. rewrite truthy_trim, Hb. simpl.
  step_builder.
  destruct (functions_invoke (description cl)) as [data| |]; simpl.
  - destruct (Schema.tag_eqb (Schema.type data) Schema.clarification); simpl.
    + unfold gateway_requests. rewrite !flat_map_app. simpl.
      now rewrite !app_nil_r.
    + destruct (forms_insert _ _ data); simpl;
        unfold gateway_requests; rewrite !flat_map_app; simpl;
        now rewrite !app_nil_r.
  - unfold gateway_requests. rewrite !flat_map_app. simpl.
    now rewrite !app_nil_r.
  - unfold gateway_requests. rewrite !flat_map_app. simpl.
    now rewrite !app_nil_r.
Qed.

(** [generateForm] registers no timer. *)
Lemma generateForm_timers (cl : State) (w : World State) :
  timers (run (generateForm cl) w) = timers w.
Proof.
  unfold run, generateForm.
  destruct (truthy (trim (description cl))); simpl; [|reflexivity].
  step_builder.
  destruct (functions_invoke (description cl)) as [data| |];
    simpl; [|reflexivity|reflexivity].
  destruct (Schema.tag_eqb (Schema.type data) Schema.clarification); simpl;
    [reflexivity|].
  destruct (forms_insert _ _ data); reflexivity.
Qed.

End BuilderFacts.

(** [join] keeps the order of the array: an element at a lower index stands
    before an element at a higher index. *)
Lemma join_cons (sep x y : jsstring) (xs : list jsstring) :
  join sep (x :: y :: xs) = x ++ sep ++ join sep (y :: xs).
Proof. reflexivity. Qed.

Lemma join_contains (sep : jsstring) (xs : list jsstring) (j : nat)
    (a : jsstring) :
  xs !! j = Some a ->
  exists pre post, join sep xs = pre ++ a ++ post.
Proof.
  revert j. induction xs as [|x xs IH]; intros j Hj; [discriminate|].
  destruct j as [|j]; simpl in Hj.
  - injection Hj as ->. destruct xs as [|y xs].
    + exists [], []. simpl. now rewrite app_nil_r.
    + exists [], (sep ++ join sep (y :: xs)). now rewrite join_cons.
  - destruct xs as [|y xs]; [discriminate|].
    destruct (IH j Hj) as (pre & post & Heq).
    exists (x ++ sep ++ pre), post.
    rewrite join_cons, Heq. now rewrite <- !app_assoc.
Qed.

Lemma join_order (sep : jsstring) (xs : list jsstring) (i j : nat)
    (ai aj : jsstring) :
  xs !! i = Some ai -> xs !! j = Some aj -> (i < j)%nat ->
  exists pre mid post, join sep xs = pre ++ ai ++ mid ++ aj ++ post.
Proof.
  revert i j. induction xs as [|x xs IH]; intros i j Hi Hj Hlt;
    [discriminate|].
  destruct j as [|j]; [lia|]. simpl in Hj.
  destruct xs as [|y xs]; [discriminate|].
  destruct i as [|i]; simpl in Hi.
  - injection Hi as ->.
    destruct (join_contains sep (y :: xs) j aj Hj) as (pre & post & Heq).
    exists [], (sep ++ pre), post.
    rewrite join_cons, Heq. simpl. now rewrite <- !app_assoc.
  - destruct (IH i j Hi Hj ltac:(lia)) as (pre & mid & post & Heq).
    exists (x ++ sep ++ pre), mid, post.
    rewrite join_cons, Heq. now rewrite <- !app_assoc.
Qed.

(** C6.  [handleClarificationSubmit] sets the description to the original
    one, verbatim, followed by a blank line, the label "Clarifications:" and
    the answers one per line in the order given.  With two answers: the
    original description is a prefix of the amended one, the labelled block
    follows it, and in the block the first answer stands before the
    second. *)
Theorem handleClarificationSubmit_amends
    (cl : FormBuilder.State) (a1 a2 : jsstring)
    (w : World FormBuilder.State) :
  let amended :=
    FormBuilder.description
      (state (run (FormBuilder.handleClarificationSubmit cl [a1; a2]) w)) in
  amended
  = FormBuilder.description cl
      ++ (nl ++ nl ++ JS "Clarifications:" ++ nl) ++ a1 ++ nl ++ a2
  /\ (exists block, amended = FormBuilder.description cl ++ block)
  /\ (exists mid,
        amended
        = (FormBuilder.description cl ++ nl ++ nl ++ JS "Clarifications:" ++ nl)
            ++ a1 ++ mid ++ a2).
Proof.
  intros amended. split; [reflexivity|]. split.
  - eexists. reflexivity.
  - exists nl. subst amended. unfold run. simpl.
    now rewrite <- !app_assoc.
Qed.

(** The same for any number of answers: the block lists all of them, and an
    answer to an earlier question stands before an answer to a later one. *)
Lemma handleClarificationSubmit_amends_all
    (cl : FormBuilder.State) (answers : list jsstring)
    (w : World FormBuilder.State) :
  FormBuilder.description
    (state (run (FormBuilder.handleClarificationSubmit cl answers) w))
  = FormBuilder.description cl
      ++ (nl ++ nl ++ JS "Clarifications:" ++ nl)
      ++ join nl answers.
Proof.
  reflexivity.
Qed.

Lemma handleClarificationSubmit_keeps_order
    (cl : FormBuilder.State) (answers : list jsstring)
    (w : World FormBuilder.State) (i j : nat) (ai aj : jsstring) :
  answers !! i = Some ai -> answers !! j = Some aj -> (i < j)%nat ->
  exists pre mid post,
    FormBuilder.description
      (state (run (FormBuilder.handleClarificationSubmit cl answers) w))
    = (FormBuilder.description cl ++ (nl ++ nl ++ JS "Clarifications:" ++ nl)
         ++ pre)
        ++ ai ++ mid ++ aj ++ post.
Proof.
  intros Hi Hj Hlt.
  destruct (join_order nl answers i j ai aj Hi Hj Hlt)
    as (pre & mid & post & Heq).
  exists pre, mid, post.
  rewrite handleClarificationSubmit_amends_all, Heq.
  now rewrite <- !app_assoc.
Qed.

(** What the clarification round does, for any closure and any answers that
    the dialog lets through: the description in the state becomes the amended
    one, and when the timer fires, the one request it sends carries the
    description of the closure in which the timer was set, that is the
    description as it was before the amendment. *)
Lemma clarification_round_resubmits_closure_description `{Supabase}
    (cl : FormBuilder.State) (questions answers : list jsstring)
    (w : World FormBuilder.State) :
  blank (FormBuilder.description cl) = false ->
  existsb (fun answer => negb (truthy (trim answer))) answers = false ->
  timers w = [] ->
  let answered :=
    run (ClarificationDialog.handleSubmit questions answers
           (FormBuilder.handleClarificationSubmit cl)) w in
  let resubmitted := run FormBuilder.fire_timer answered in
  FormBuilder.description (state answered)
  = FormBuilder.description cl
      ++ (nl ++ nl ++ JS "Clarifications:" ++ nl) ++ join nl answers
  /\ gateway_requests (effects answered) = gateway_requests (effects w)
  /\ gateway_requests (effects resubmitted)
     = gateway_requests (effects w) ++ [FormBuilder.description cl]
  /\ timers resubmitted = [].
Proof.
  intros Hb Hans Ht answered resubmitted.
  assert (Ha : answered
               = mkWorld (FormBuilder.mkState
                            (FormBuilder.description cl
                               ++ (nl ++ nl ++ JS "Clarifications:" ++ nl)
                               ++ join nl answers)
                            (FormBuilder.isGenerating (state w)) None false
                            (FormBuilder.formId (state w)))
                         (effects w) [cl]).
  { subst answered. unfold run, ClarificationDialog.handleSubmit.
    rewrite Hans. unfold bind, FormBuilder.handleClarificationSubmit, bind.
    simpl. now rewrite Ht. }
  split; [now rewrite Ha|]. split; [now rewrite Ha|].
  assert (Hr : resubmitted
               = run (FormBuilder.generateForm cl)
                     (mkWorld (state answered) (effects w) [])).
  { subst resubmitted. rewrite Ha. reflexivity. }
  rewrite Hr. split.
  - now rewrite generateForm_requests.
  - now rewrite generateForm_timers.
Qed.

(** C2, on the scenario of the specification.  After the clarification is
    answered, one new request goes to the gateway, but it carries the
    original description; the amended description is in the state (and in
    the text area) only. *)
Theorem clarification_retry_sends_original_description :
  gateway_requests (effects Scenario.asked) = [Scenario.original]
  /\ FormBuilder.dialog (state Scenario.asked)
     = Some (FormBuilder.mkDialog true (JS "...") [Scenario.question])
  /\ FormBuilder.description (state Scenario.answered)
     = Scenario.original
         ++ nl ++ nl ++ JS "Clarifications:" ++ nl ++ JS "anonymous"
  /\ gateway_requests (effects Scenario.resubmitted)
     = [Scenario.original; Scenario.original]
  /\ FormBuilder.description (state Scenario.answered) <> Scenario.original.
Proof.
  repeat split; try reflexivity. vm_compute. discriminate.
Qed.

(** ** The generation result *)

(** C3, as the specification words it: a value with tag [form] would carry
    a title and fields and nothing of a clarification, and conversely.  The
    interface [FormSchema] is one record whose fields are all optional, so it
    has values in which the fields of the two variants are mixed. *)
Lemma generation_result_is_not_a_sum :
  ~ (forall g : Schema.t,
       match Schema.type g with
       | Schema.form =>
           is_Some (Schema.title g) /\ is_Some (Schema.fields g)
           /\ Schema.contradiction g = None /\ Schema.questions g = None
       | Schema.clarification =>
           is_Some (Schema.contradiction g) /\ is_Some (Schema.questions g)
           /\ Schema.title g = None /\ Schema.fields g = None
       end).
Proof.
  intros Hclaim. destruct (Hclaim mixed_reply) as [[x Hx] _]. discriminate.
Qed.

(** Such a value goes through [generateForm] untouched and is rendered as a
    form. *)
Example mixed_reply_is_rendered :
  let w := run (FormBuilder.generateForm (H := accepting mixed_reply)
                  (state Scenario.typed)) Scenario.typed in
  FormBuilder.formSchema (state w) = Some mixed_reply
  /\ FormBuilder.preview (state w) = FormBuilder.PreviewForm mixed_reply.
Proof. split; reflexivity. Qed.

Section ResultFacts.

Context `{Supabase}.

Import FormBuilder.

(** C3, amended.  A generation result is one record with a tag and
    optional fields, and the tag alone decides how it is consumed.
    [generateForm] stores the reply as it is; with tag [clarification] it
    opens the dialog, which shows the contradiction (or the empty string)
    and the questions (or none), and nothing is saved; with tag [form] the
    preview renders the record, no dialog is mounted, and the form is sent
    to the storage collaborator with the title (or "Untitled Form") and the
    description (or the empty string). *)
Theorem generation_result_consumed_by_tag
    (cl : State) (w : World State) (g : Schema.t) :
  blank (description cl) = false ->
  functions_invoke (description cl) = Data g ->
  let w' := run (generateForm cl) w in
  formSchema (state w') = Some g
  /\ match Schema.type g with
     | Schema.clarification =>
         dialog (state w')
         = Some (mkDialog true (prop_or (Schema.contradiction g) [])
                          (default [] (Schema.questions g)))
         /\ preview (state w') = PreviewPlaceholder
         /\ effects w'
            = effects w
                ++ [FunctionsInvoke (description cl);
                    Toast toast_info
                      (JS "We need some clarification about your form")]
     | Schema.form =>
         preview (state w') = PreviewForm g
         /\ dialog (state w') = None
         /\ exists outcome,
              effects w'
              = effects w
                  ++ [FunctionsInvoke (description cl);
                      FormsInsert
                        (prop_or (Schema.title g) (JS "Untitled Form"))
                        (prop_or (Schema.description g) []) g;
                      outcome]
     end.
Proof.
  intros Hb Hreply w'. subst w'. unfold run, generateForm.
  rewrite truthy_trim, Hb. simpl.
  step_builder. rewrite Hreply. simpl. unfold preview, dialog.
  destruct (Schema.type g) eqn:Hty; simpl.
  - destruct (forms_insert _ _ g); simpl; rewrite Hty; simpl;
      (split; [reflexivity|]); (split; [reflexivity|]);
      (split; [reflexivity|]); eexists; rewrite <- !app_assoc; reflexivity.
  - rewrite Hty. simpl. repeat split. now rewrite <- !app_assoc.
Qed.

End ResultFacts.

Lemma generation_result_consumed_by_tag_witness :
  let w := run (FormBuilder.generateForm (H := accepting mixed_reply)
                  (state Scenario.typed)) Scenario.typed in
  FormBuilder.formSchema (state w) = Some mixed_reply
  /\ FormBuilder.preview (state w) = FormBuilder.PreviewForm mixed_reply
  /\ FormBuilder.dialog (state w) = None.
Proof.
  intros w.
  pose proof (generation_result_consumed_by_tag (H := accepting mixed_reply)
                (state Scenario.typed) Scenario.typed mixed_reply
                eq_refl eq_refl) as (Hs & Hp & Hd & _).
  split; [exact Hs|]. split; [exact Hp | exact Hd].
Defined.

Lemma generateForm_blank_description_witness :
  let cl := FormBuilder.mkState (JS "   ") false None false None in
  let w := mkWorld cl [] [] in
  state (run (FormBuilder.generateForm (H := accepting mixed_reply) cl) w)
  = cl
  /\ gateway_requests
       (effects (run (FormBuilder.generateForm (H := accepting mixed_reply)
                        cl) w))
     = [].
Proof.
  intros cl w.
  pose proof (generateForm_blank_description (H := accepting mixed_reply)
                cl w eq_refl) as (Hs & _ & Hg & _).
  split; [exact Hs | exact Hg].
Defined.

(** * Further properties of the code *)

(** ** The built-in regular expressions, characterised *)

Lemma nullable_matches (r : Regex.t) :
  Regex.nullable r = true <-> RegexMatches r [].
Proof.
  split.
  - induction r as [| |p|r1 IH1 r2 IH2|r1 IH1 r2 IH2|r IH]; simpl;
      try discriminate.
    + intros _. constructor.
    + intros [H1 H2]%andb_prop.
      change (@nil N) with (@nil N ++ @nil N). constructor; auto.
    + intros [H1|H2]%orb_prop; [apply MatchAltL | apply MatchAltR]; auto.
    + intros _. constructor.
  - intros Hm. remember (@nil N) as s eqn:Hs.
    induction Hm as [|p c Hp|r1 r2 s1 s2 H1 IH1 H2 IH2|r1 r2 s H1 IH1
                     |r1 r2 s H2 IH2|r|r s1 s2 H1 IH1 H2 IH2]; simpl;
      try reflexivity; try discriminate.
    + destruct s1; [|discriminate]. destruct s2; [|discriminate].
      now rewrite IH1, IH2.
    + now rewrite IH1.
    + rewrite IH2 by assumption. apply orb_true_r.
Qed.

Lemma deriv_sound (c : N) (r : Regex.t) (s : list N) :
  RegexMatches (Regex.deriv c r) s -> RegexMatches r (c :: s).
Proof.
  revert s.
  induction r as [| |p|r1 IH1 r2 IH2|r1 IH1 r2 IH2|r IH]; simpl; intros s Hm.
  - inversion Hm.
  - inversion Hm.
  - destruct (p c) eqn:Hp; inversion Hm; subst. now constructor.
  - destruct (Regex.nullable r1) eqn:Hn.
    + inversion Hm as [| | |? ? ? Hl|? ? ? Hr| |]; subst.
      * inversion Hl as [| |? ? s1 s2 Hd H2| | | |]; subst.
        change (c :: s1 ++ s2) with ((c :: s1) ++ s2). constructor; auto.
      * change (c :: s) with ([] ++ c :: s). constructor; auto.
        now apply nullable_matches.
    + inversion Hm as [| |? ? s1 s2 Hd H2| | | |]; subst.
      change (c :: s1 ++ s2) with ((c :: s1) ++ s2). constructor; auto.
  - inversion Hm; subst; [apply MatchAltL | apply MatchAltR]; auto.
  - inversion Hm as [| |? ? s1 s2 Hd H2| | | |]; subst.
    change (c :: s1 ++ s2) with ((c :: s1) ++ s2). constructor; auto.
Qed.

Lemma deriv_complete (c : N) (r : Regex.t) (s : list N) :
  RegexMatches r (c :: s) -> RegexMatches (Regex.deriv c r) s.
Proof.
  intros Hm. remember (c :: s) as cs eqn:Hcs. revert s Hcs.
  induction Hm as [|p c' Hp|r1 r2 s1 s2 H1 IH1 H2 IH2|r1 r2 s' H1 IH1
                   |r1 r2 s' H2 IH2|r|r s1 s2 H1 IH1 H2 IH2];
    intros s Hcs; simpl.
  - discriminate.
  - injection Hcs as -> <-. rewrite Hp. constructor.
  - destruct s1 as [|c1 s1].
    + simpl in Hcs. subst s2.
      apply nullable_matches in H1. rewrite H1.
      apply MatchAltR. now apply IH2.
    + injection Hcs as -> <-.
      assert (Hd : RegexMatches (Regex.Seq (Regex.deriv c r1) r2) (s1 ++ s2))
        by (constructor; auto).
      destruct (Regex.nullable r1); [now apply MatchAltL | exact Hd].
  - apply MatchAltL. now apply IH1.
  - apply MatchAltR. now apply IH2.
  - discriminate.
  - destruct s1 as [|c1 s1].
    + simpl in Hcs. now apply IH2.
    + injection Hcs as -> <-. constructor; auto.
Qed.

(** [Regex.test] decides the language of the expression. *)
Lemma test_matches (r : Regex.t) (s : list N) :
  Regex.test r s = true <-> RegexMatches r s.
Proof.
  unfold Regex.test. revert r.
  induction s as [|c s IH]; intros r; simpl.
  - apply nullable_matches.
  - rewrite IH. split; [apply deriv_sound | apply deriv_complete].
Qed.

Lemma matches_class (p : N -> bool) (s : list N) :
  RegexMatches (Regex.Class p) s <-> exists c, s = [c] /\ p c = true.
Proof.
  split.
  - intros Hm. inversion Hm; subst. eauto.
  - intros (c & -> & Hp). now constructor.
Qed.

Lemma matches_star_class (p : N -> bool) (s : list N) :
  RegexMatches (Regex.Star (Regex.Class p)) s <-> forallb p s = true.
Proof.
  split.
  - intros Hm. remember (Regex.Star (Regex.Class p)) as r eqn:Hr.
    induction Hm as [| | | | |r'|r' s1 s2 H1 _ H2 IH2]; try discriminate.
    + reflexivity.
    + injection Hr as ->. inversion H1; subst. simpl.
      rewrite IH2 by reflexivity. now rewrite andb_true_r.
  - induction s as [|c s IH]; simpl.
    + intros _. constructor.
    + intros [Hc Hs]%andb_prop.
      change (c :: s) with ([c] ++ s). constructor; [now constructor | auto].
Qed.

(** [c+] for a character class [c]: one or more characters of the class. *)
Lemma matches_plus_class (p : N -> bool) (s : list N) :
  RegexMatches (Regex.Plus (Regex.Class p)) s
  <-> s <> [] /\ forallb p s = true.
Proof.
  unfold Regex.Plus. split.
  - intros Hm. inversion Hm as [| |? ? s1 s2 H1 H2| | | |]; subst.
    apply matches_class in H1 as (c & -> & Hc).
    apply matches_star_class in H2. simpl. rewrite Hc, H2.
    split; [discriminate | reflexivity].
  - intros [Hne Hall]. destruct s as [|c s]; [contradiction|].
    simpl in Hall. apply andb_prop in Hall as [Hc Hs].
    change (c :: s) with ([c] ++ s).
    constructor; [now constructor | now apply matches_star_class].
Qed.

Lemma matches_seq (r1 r2 : Regex.t) (s : list N) :
  RegexMatches (Regex.Seq r1 r2) s
  <-> exists s1 s2, s = s1 ++ s2 /\ RegexMatches r1 s1 /\ RegexMatches r2 s2.
Proof.
  split.
  - intros Hm. inversion Hm; subst. eauto.
  - intros (s1 & s2 & -> & H1 & H2). now constructor.
Qed.

(** The built-in telephone check accepts exactly the non-empty strings made
    of digits, white space, [-], [+], [(] and [)]. *)
Theorem phoneRegex_accepts (s : jsstring) :
  Regex.test phoneRegex s = true
  <-> s <> [] /\ forallb phoneChar s = true.
Proof.
  rewrite test_matches. apply matches_plus_class.
Qed.

Lemma matches_emailRegex (s : list N) :
  RegexMatches emailRegex s
  <-> exists a b c,
        s = a ++ [64%N] ++ b ++ [46%N] ++ c
        /\ a <> [] /\ b <> [] /\ c <> []
        /\ forallb notSpaceOrAt a = true
        /\ forallb notSpaceOrAt b = true
        /\ forallb notSpaceOrAt c = true.
Proof.
  unfold emailRegex. split.
  - intros (a & s1 & -> & Ha & H1)%matches_seq.
    apply matches_seq in H1 as (at_ & s2 & -> & Hat & H2).
    apply matches_seq in H2 as (b & s3 & -> & Hb & H3).
    apply matches_seq in H3 as (dot & c & -> & Hdot & Hc).
    apply matches_plus_class in Ha as [Hane Ha].
    apply matches_plus_class in Hb as [Hbne Hb].
    apply matches_plus_class in Hc as [Hcne Hc].
    apply matches_class in Hat as (x & -> & ->%N.eqb_eq).
    apply matches_class in Hdot as (y & -> & ->%N.eqb_eq).
    exists a, b, c. repeat split; assumption.
  - intros (a & b & c & -> & Hane & Hbne & Hcne & Ha & Hb & Hc).
    repeat (apply MatchSeq);
      try (apply matches_plus_class; now split);
      now constructor.
Qed.

(** The built-in e-mail check accepts exactly the strings [a@b.c] in which
    [a], [b] and [c] are non-empty and hold neither white space nor [@]. *)
Theorem emailRegex_accepts (s : jsstring) :
  Regex.test emailRegex s = true
  <-> exists a b c,
        s = a ++ [64%N] ++ b ++ [46%N] ++ c
        /\ a <> [] /\ b <> [] /\ c <> []
        /\ forallb notSpaceOrAt a = true
        /\ forallb notSpaceOrAt b = true
        /\ forallb notSpaceOrAt c = true.
Proof.
  rewrite test_matches. apply matches_emailRegex.
Qed.

(** Hence an accepted address has exactly one [@] and no white space. *)
Lemma forallb_notSpaceOrAt (s : list N) :
  forallb notSpaceOrAt s = true ->
  forallb (fun c => negb (isWhiteSpace c)) s = true
  /\ count_occ N.eq_dec s 64%N = 0.
Proof.
  induction s as [|x s IH]; simpl; [auto|].
  intros [Hx Hs]%andb_prop. destruct (IH Hs) as [IH1 IH2].
  unfold notSpaceOrAt in Hx. apply negb_true_iff, orb_false_elim in Hx.
  destruct Hx as [Hw Hat]. rewrite Hw, IH1. simpl. split; [reflexivity|].
  destruct (N.eq_dec x 64%N) as [->|_]; [discriminate | exact IH2].
Qed.

Theorem emailRegex_one_at_no_space (s : jsstring) :
  Regex.test emailRegex s = true ->
  count_occ N.eq_dec s 64%N = 1
  /\ forallb (fun c => negb (isWhiteSpace c)) s = true.
Proof.
  intros Ht. apply test_matches, matches_emailRegex in Ht.
  destruct Ht as (a & b & c & -> & _ & _ & _ & Ha & Hb & Hc).
  apply forallb_notSpaceOrAt in Ha as [Ha1 Ha2].
  apply forallb_notSpaceOrAt in Hb as [Hb1 Hb2].
  apply forallb_notSpaceOrAt in Hc as [Hc1 Hc2].
  split.
  - rewrite !count_occ_app, Ha2, Hb2, Hc2. reflexivity.
  - rewrite !forallb_app, Ha1, Hb1, Hc1. reflexivity.
Qed.

Lemma emailRegex_one_at_no_space_witness :
  count_occ N.eq_dec (JS "a@b.com") 64%N = 1
  /\ forallb (fun c => negb (isWhiteSpace c)) (JS "a@b.com") = true.
Proof.
  apply (emailRegex_one_at_no_space (JS "a@b.com")). reflexivity.
Defined.

(** ** The field validator, further *)

Section ValidatorMore.

Variable RegExp : jsstring -> option (jsstring -> bool).

(** The validator throws in one situation only: a non-empty value that the
    required check lets through meets a non-empty custom pattern that the
    engine refuses to compile. *)
Theorem validateField_throws_iff
    (field : Field.t) (value : jsstring) (e : exn) :
  validateField RegExp field value = Throw e
  <-> e = SyntaxError
      /\ truthy value = true
      /\ truthy (Field.validation_pattern field) = true
      /\ RegExp (Field.validation_pattern field) = None
      /\ (Field.required field = false \/ blank value = false).
Proof.
  unfold validateField, and_then, falls_through. rewrite truthy_trim.
  destruct (Field.required field) eqn:Hreq; destruct (blank value) eqn:Hb;
    destruct (truthy value) eqn:Hv;
    destruct (truthy (Field.validation_pattern field)) eqn:Hp; simpl;
    try (destruct (RegExp (Field.validation_pattern field)) as [regex|] eqn:Hre;
         [destruct (regex value)|]); simpl;
    try (destruct (FieldType_eqb (Field.type field) email);
         [destruct (Regex.test emailRegex value)|]); simpl;
    try (destruct (FieldType_eqb (Field.type field) tel);
         [destruct (Regex.test phoneRegex value)|]); simpl;
    split;
    try discriminate;
    try (intros [= <-]; repeat split; auto);
    try (intros (He & H1 & H2 & H3 & H4); subst; try discriminate;
         try reflexivity; destruct H4; discriminate).
Qed.

(** The messages of the validator: there are four kinds, and none is the
    empty string. *)
Theorem validateField_messages
    (field : Field.t) (value msg : jsstring) :
  validateField RegExp field value = Return (Some msg) ->
  truthy msg = true
  /\ (msg = Field.label field ++ JS " is required"
      \/ msg = or_else (Field.validation_message field)
                       (JS "Invalid " ++ Field.label field)
      \/ msg = JS "Invalid email address"
      \/ msg = JS "Invalid phone number").
Proof.
  intros Hv. split; [exact (validateField_message_truthy _ _ _ _ Hv)|].
  revert Hv. unfold validateField, and_then, falls_through.
  destruct (Field.required field && negb (truthy (trim value)));
    [intros [= <-]; auto|].
  destruct (truthy value && truthy (Field.validation_pattern field));
    [destruct (RegExp (Field.validation_pattern field)) as [regex|];
     [destruct (negb (regex value)); [intros [= <-]; auto|]|discriminate]|];
    (destruct (truthy value && FieldType_eqb (Field.type field) email);
     [destruct (negb (Regex.test emailRegex value));
      [intros [= <-]; auto|]|];
     (destruct (truthy value && FieldType_eqb (Field.type field) tel);
      [destruct (negb (Regex.test phoneRegex value));
       [intros [= <-]; auto|discriminate]|discriminate])).
Qed.

(** No check is built in for the types other than [email] and [tel]: without
    a custom pattern, every value that the required check lets through is
    accepted.  A number field takes any text, and the value of a select
    field is not compared with its options. *)
Theorem validateField_unchecked_types
    (field : Field.t) (value : jsstring) :
  Field.type field <> email ->
  Field.type field <> tel ->
  truthy (Field.validation_pattern field) = false ->
  (Field.required field = false \/ blank value = false) ->
  validateField RegExp field value = Return None.
Proof.
  intros Hne Hnt Hp Hreq. unfold validateField, and_then, falls_through.
  rewrite truthy_trim, Hp, andb_false_r.
  assert (Field.required field && negb (negb (blank value)) = false) as ->.
  { destruct Hreq as [-> | ->]; [reflexivity | apply andb_false_r]. }
  destruct (Field.type field); try contradiction; simpl;
    now rewrite !andb_false_r.
Qed.

End ValidatorMore.

Lemma validateField_messages_witness :
  truthy (JS "Invalid email address") = true
  /\ (JS "Invalid email address" = JS "Email is required"
      \/ JS "Invalid email address" = JS "Invalid Email"
      \/ JS "Invalid email address" = JS "Invalid email address"
      \/ JS "Invalid email address" = JS "Invalid phone number").
Proof.
  apply (validateField_messages literalRegExp email_field (JS "nope")
           (JS "Invalid email address")).
  reflexivity.
Defined.

Lemma validateField_unchecked_types_witness :
  validateField literalRegExp
    (Field.mk (JS "tier") (JS "Tier") select None true None
              (Some [JS "basic"; JS "premium"]))
    (JS "platinum")
  = Return None.
Proof.
  apply (validateField_unchecked_types literalRegExp
           (Field.mk (JS "tier") (JS "Tier") select None true None
                     (Some [JS "basic"; JS "premium"]))
           (JS "platinum")).
  - discriminate.
  - discriminate.
  - reflexivity.
  - right. reflexivity.
Defined.

(** ** The submission pipeline, further *)


(** What [handleChange] makes of a world, when it runs in the closure of
    the current state. *)
Lemma handleChange_world (w : World DynamicForm.State)
    (fieldId value : jsstring) :
  run (DynamicForm.handleChange (state w) fieldId value) w
  = mkWorld
      (DynamicForm.mkState
         (<[fieldId := value]> (DynamicForm.formData (state w)))
         (if truthy (default [] (DynamicForm.errors (state w) !! fieldId))
          then delete fieldId (DynamicForm.errors (state w))
          else DynamicForm.errors (state w))
         (DynamicForm.isSubmitting (state w))
         (DynamicForm.submitted (state w)))
      (effects w) (timers w).
Proof.
  unfold run, DynamicForm.handleChange, bind, DynamicForm.setFormData,
    DynamicForm.setErrors, modify, ret. simpl.
  destruct (truthy (default [] (DynamicForm.errors (state w) !! fieldId)));
    reflexivity.
Qed.

Section SubmitMore.

Variable RegExp : jsstring -> option (jsstring -> bool).
Context `{Supabase}.
Variable schema : Schema.t.
Variable formId : option jsstring.

Import DynamicForm.






(** A submission that validates and is accepted by the storage collaborator
    hands over exactly the current answers and clears the form; "Submit
    Another" then shows the form as it was at the start. *)
Theorem submit_then_another_resets (w : World State) :
  let form_title := prop_or (Schema.title schema) (JS "Untitled Form") in
  let form_id := match formId with
                 | Some i => if truthy i then Some i else None
                 | None => None
                 end in
  (forall field, In field (default [] (Schema.fields schema)) ->
     validateField RegExp field (answer (formData (state w)) field)
     = Return None) ->
  form_submissions_insert form_title (formData (state w)) form_id = Data tt ->
  let w1 := dispatch RegExp schema formId Submit w in
  let w2 := dispatch RegExp schema formId SubmitAnother w1 in
  effects w1
  = effects w
      ++ [SubmissionsInsert form_title (formData (state w)) form_id;
          Toast toast_success (JS "Form submitted successfully!")]
  /\ submitted (state w1) = true
  /\ state w2 = initial
  /\ effects w2 = effects w1.
Proof.
  intros form_title form_id Hpass Hins w1 w2. subst w2 w1.
  unfold dispatch, run.
  rewrite (handleSubmit_valid RegExp schema formId (state w) w empty);
    [| now apply forEach_all_pass | apply map_size_empty].
  fold form_title form_id. rewrite Hins. simpl. auto.
Qed.

End SubmitMore.




Lemma submit_then_another_resets_witness :
  let cl := DynamicForm.mkState {[ JS "email" := JS "a@b.com" ]} empty
                                false false in
  state (DynamicForm.dispatch (H := accepting (form_of [])) literalRegExp
           (form_of [email_field]) None DynamicForm.SubmitAnother
           (DynamicForm.dispatch (H := accepting (form_of [])) literalRegExp
              (form_of [email_field]) None DynamicForm.Submit
              (mkWorld cl [] [])))
  = DynamicForm.initial.
Proof.
  intros cl.
  destruct (submit_then_another_resets literalRegExp
              (H := accepting (form_of []))
              (form_of [email_field]) None (mkWorld cl [] []))
    as (_ & _ & Hinit & _).
  - intros field [<-|[]]. reflexivity.
  - reflexivity.
  - exact Hinit.
Defined.

(** ** Editing, further *)

Section EditMore.

Variable RegExp : jsstring -> option (jsstring -> bool).
Context `{Supabase}.
Variable schema : Schema.t.
Variable formId : option jsstring.

Import DynamicForm.

(** Edits compose as writes to a map: edits of two different fields give the
    same state in either order, and of two edits of one field the later
    one stands. *)
Theorem edits_commute (w : World State) (k1 v1 k2 v2 : jsstring) :
  k1 <> k2 ->
  dispatch RegExp schema formId (Change k2 v2)
    (dispatch RegExp schema formId (Change k1 v1) w)
  = dispatch RegExp schema formId (Change k1 v1)
      (dispatch RegExp schema formId (Change k2 v2) w).
Proof.
  intros Hne. unfold dispatch. rewrite !handleChange_world. simpl.
  assert (H1 : (if truthy (default [] (errors (state w) !! k1))
                then delete k1 (errors (state w))
                else errors (state w)) !! k2 = errors (state w) !! k2).
  { destruct (truthy (default [] (errors (state w) !! k1)));
      [now apply lookup_delete_ne | reflexivity]. }
  assert (H2 : (if truthy (default [] (errors (state w) !! k2))
                then delete k2 (errors (state w))
                else errors (state w)) !! k1 = errors (state w) !! k1).
  { destruct (truthy (default [] (errors (state w) !! k2)));
      [apply lookup_delete_ne; congruence | reflexivity]. }
  rewrite H1, H2. f_equal. f_equal.
  - now apply insert_insert_ne.
  - destruct (truthy (default [] (errors (state w) !! k1))),
             (truthy (default [] (errors (state w) !! k2)));
      try reflexivity. apply delete_delete.
Qed.

Theorem edits_last_wins (w : World State) (k v1 v2 : jsstring) :
  dispatch RegExp schema formId (Change k v2)
    (dispatch RegExp schema formId (Change k v1) w)
  = dispatch RegExp schema formId (Change k v2) w.
Proof.
  unfold dispatch. rewrite !handleChange_world. simpl.
  f_equal. f_equal.
  - apply insert_insert_eq.
  - destruct (truthy (default [] (errors (state w) !! k))) eqn:Ht.
    + now rewrite lookup_delete_eq.
    + now rewrite Ht.
Qed.

End EditMore.

Lemma edits_commute_witness :
  DynamicForm.dispatch (H := accepting (form_of [])) literalRegExp
    (form_of [name_field; email_field]) None
    (DynamicForm.Change (JS "email") (JS "a@b.com"))
    (DynamicForm.dispatch (H := accepting (form_of [])) literalRegExp
       (form_of [name_field; email_field]) None
       (DynamicForm.Change (JS "name") (JS "Ada")) dispatch_submit_failed)
  = DynamicForm.dispatch (H := accepting (form_of [])) literalRegExp
      (form_of [name_field; email_field]) None
      (DynamicForm.Change (JS "name") (JS "Ada"))
      (DynamicForm.dispatch (H := accepting (form_of [])) literalRegExp
         (form_of [name_field; email_field]) None
         (DynamicForm.Change (JS "email") (JS "a@b.com"))
         dispatch_submit_failed).
Proof.
  apply (edits_commute literalRegExp (H := accepting (form_of []))
           (form_of [name_field; email_field]) None dispatch_submit_failed).
  discriminate.
Defined.

(** ** Generation, further *)

Section BuilderMore.

Context `{Supabase}.

Import FormBuilder.

Lemma generateForm_keeps_description (cl : State) (w : World State) :
  description (state (run (generateForm cl) w)) = description (state w).
Proof.
  unfold run, generateForm.
  destruct (truthy (trim (description cl))); simpl; [|reflexivity].
  step_builder.
  destruct (functions_invoke (description cl)) as [data| |];
    simpl; [|reflexivity|reflexivity].
  destruct (Schema.tag_eqb (Schema.type data) Schema.clarification); simpl;
    [reflexivity|].
  destruct (forms_insert _ _ data); reflexivity.
Qed.

Lemma generateForm_clears_isGenerating (cl : State) (w : World State) :
  blank (description cl) = false ->
  isGenerating (state (run (generateForm cl) w)) = false.
Proof.
  intros Hb. unfold run, generateForm. rewrite truthy_trim, Hb. simpl.
  step_builder.
  destruct (functions_invoke (description cl)) as [data| |];
    simpl; [|reflexivity|reflexivity].
  destruct (Schema.tag_eqb (Schema.type data) Schema.clarification); simpl;
    [reflexivity|].
  destruct (forms_insert _ _ data); reflexivity.
Qed.

(** Whatever the gateway and the storage collaborator reply, a generation
    attempt on a description that is not blank sends exactly one request,
    ends with the generating flag off, sets no timer, and never touches the
    text of the description. *)
Theorem generateForm_settles (cl : State) (w : World State) :
  blank (description cl) = false ->
  let w' := run (generateForm cl) w in
  isGenerating (state w') = false
  /\ description (state w') = description (state w)
  /\ gateway_requests (effects w')
     = gateway_requests (effects w) ++ [description cl]
  /\ timers w' = timers w.
Proof.
  intros Hb w'. subst w'. split; [|split; [|split]].
  - now apply generateForm_clears_isGenerating.
  - apply generateForm_keeps_description.
  - now apply generateForm_requests.
  - apply generateForm_timers.
Qed.

(** When the gateway does not deliver a result (it answers with an error, or
    the call is rejected), the attempt changes nothing but the generating
    flag: the description, the schema shown before, the dialog flag and the
    form id stay, nothing is saved, and one error toast is shown. *)
Theorem generateForm_gateway_failure (cl : State) (w : World State) :
  blank (description cl) = false ->
  (forall g, functions_invoke (description cl) <> Data g) ->
  let w' := run (generateForm cl) w in
  state w'
  = mkState (description (state w)) false (formSchema (state w))
            (showClarification (state w)) (formId (state w))
  /\ effects w'
     = effects w
         ++ [FunctionsInvoke (description cl);
             Toast toast_error
               (match functions_invoke (description cl) with
                | Rejected => JS "An error occurred while generating the form"
                | _ => JS "Failed to generate form. Please try again."
                end)].
Proof.
  intros Hb Hfail w'. subst w'. unfold run, generateForm.
  rewrite truthy_trim, Hb. simpl. step_builder.
  destruct (functions_invoke (description cl)) as [data| |]; simpl.
  - now destruct (Hfail data).
  - split; [reflexivity | now rewrite <- app_assoc].
  - split; [reflexivity | now rewrite <- app_assoc].
Qed.

(** When the gateway returns a form, the form is shown whether or not it
    could be saved.  The form id becomes the id of the saved row; if saving
    fails, the form id is left as it was, so that "Copy Link" is shown
    exactly when an earlier generation had left an id behind. *)
Theorem generateForm_form_link (cl : State) (w : World State) (g : Schema.t) :
  blank (description cl) = false ->
  functions_invoke (description cl) = Data g ->
  Schema.type g = Schema.form ->
  let saved := forms_insert (prop_or (Schema.title g) (JS "Untitled Form"))
                            (prop_or (Schema.description g) []) g in
  let w' := run (generateForm cl) w in
  preview (state w') = PreviewForm g
  /\ formId (state w')
     = match saved with
       | Data id => Some id
       | _ => formId (state w)
       end
  /\ copyLinkVisible (state w')
     = match saved with
       | Data id => truthy id
       | _ => truthy (default [] (formId (state w)))
       end.
Proof.
  intros Hb Hreply Hty saved w'. subst w' saved. unfold run, generateForm.
  rewrite truthy_trim, Hb. simpl. step_builder.
  rewrite Hreply. simpl. rewrite Hty. simpl.
  unfold preview, copyLinkVisible.
  destruct (forms_insert _ _ g); simpl; rewrite Hty; simpl; auto.
Qed.

(** A dialog with a blank answer does nothing when "Continue" is invoked:
    the answers stay, the state and the effects are as before, and no timer
    is set, so that no request follows. *)
Theorem blank_answer_blocks_resubmission
    (cl : State) (questions answers : list jsstring) (w : World State) :
  existsb blank answers = true ->
  ClarificationDialog.handleSubmit questions answers
    (handleClarificationSubmit cl) w
  = (Return answers, w).
Proof.
  intros Hex. unfold ClarificationDialog.handleSubmit.
  assert (existsb (fun answer => negb (truthy (trim answer))) answers = true)
    as ->; [|reflexivity].
  apply existsb_exists in Hex as (a & Hin & Ha).
  apply existsb_exists. exists a. split; [exact Hin|].
  now rewrite truthy_trim, Ha.
Qed.

(** "New Form" leaves nothing of the old form on the page: the preview
    shows the placeholder, no dialog is mounted, no link is offered, and
    "Generate Form" is disabled until a description is typed. *)
Theorem handleFormReset_clears_view (w : World State) :
  let w' := run handleFormReset w in
  preview (state w') = PreviewPlaceholder
  /\ dialog (state w') = None
  /\ copyLinkVisible (state w') = false
  /\ generateDisabled (state w') = true
  /\ effects w' = effects w
  /\ timers w' = timers w.
Proof.
  unfold run, handleFormReset, generateDisabled. step_builder.
  repeat split. apply orb_true_r.
Qed.

End BuilderMore.

Lemma generateForm_settles_witness :
  FormBuilder.isGenerating (state Scenario.asked) = false
  /\ FormBuilder.description (state Scenario.asked) = Scenario.original
  /\ gateway_requests (effects Scenario.asked) = [Scenario.original]
  /\ timers Scenario.asked = [].
Proof.
  apply (generateForm_settles (H := accepting Scenario.reply)
           (state Scenario.typed) Scenario.typed).
  reflexivity.
Defined.

Lemma generateForm_gateway_failure_witness :
  let sb := {| functions_invoke := fun _ => Rejected;
               forms_insert := fun _ _ _ => Error;
               form_submissions_insert := fun _ _ _ => Error |} in
  let w' := run (FormBuilder.generateForm (H := sb) (state Scenario.typed))
                Scenario.typed in
  state w' = state Scenario.typed
  /\ effects w'
     = [FunctionsInvoke Scenario.original;
        Toast toast_error (JS "An error occurred while generating the form")].
Proof.
  intros sb w'.
  apply (generateForm_gateway_failure (H := sb)
           (state Scenario.typed) Scenario.typed).
  - reflexivity.
  - intros g. discriminate.
Defined.

Lemma generateForm_form_link_witness :
  let w' := run (FormBuilder.generateForm
                   (H := refusing (form_of [email_field]))
                   (state Scenario.typed)) Scenario.typed in
  FormBuilder.preview (state w')
  = FormBuilder.PreviewForm (form_of [email_field])
  /\ FormBuilder.formId (state w') = None
  /\ copyLinkVisible (state w') = false.
Proof.
  intros w'.
  apply (generateForm_form_link (H := refusing (form_of [email_field]))
           (state Scenario.typed) Scenario.typed (form_of [email_field]));
    reflexivity.
Defined.

Lemma blank_answer_blocks_resubmission_witness :
  ClarificationDialog.handleSubmit [Scenario.question] [JS "  "]
    (FormBuilder.handleClarificationSubmit (state Scenario.asked))
    Scenario.asked
  = (Return [JS "  "], Scenario.asked).
Proof.
  apply (blank_answer_blocks_resubmission (state Scenario.asked)
           [Scenario.question] [JS "  "] Scenario.asked).
  reflexivity.
Defined.

Lemma clarification_round_resubmits_closure_description_witness :
  FormBuilder.description (state Scenario.answered)
  = Scenario.original
      ++ (nl ++ nl ++ JS "Clarifications:" ++ nl) ++ JS "anonymous"
  /\ gateway_requests (effects Scenario.answered) = [Scenario.original]
  /\ gateway_requests (effects Scenario.resubmitted)
     = [Scenario.original; Scenario.original]
  /\ timers Scenario.resubmitted = [].
Proof.
  apply (clarification_round_resubmits_closure_description
           (H := accepting Scenario.reply)
           (state Scenario.asked) [Scenario.question] Scenario.answers
           Scenario.asked); reflexivity.
Defined.

(** ** Loading a shared form *)

Section SharedFormFacts.

Import SharedForm.

Variable forms_select : jsstring -> Reply (option Row).

(** Loading always comes to an end.  Every path of [fetchForm] switches the
    spinner off, whatever the reply is; a query is sent exactly when the link
    carries a non-empty identifier, and then it is one query for that
    identifier. *)
Theorem fetchForm_stops_loading (id : option jsstring) (s : State) :
  isLoading (after (fetchForm forms_select id) s) = false
  /\ queries (fetchForm forms_select id)
     = (if truthy (default [] id) then [default [] id] else []).
Proof.
  unfold fetchForm.
  destruct (truthy (default [] id)); simpl; [|auto].
  destruct (forms_select (default [] id)) as [[data|]| |]; simpl; auto.
  destruct (negb (default false (accepting_responses data))); simpl; auto.
Qed.

(** The page shows the form exactly when the query delivers a row, and then
    it shows the schema of that row; in every other case (no identifier, an
    error, a rejection, no row) it shows "Form Not Found" after one toast. *)
Theorem fetchForm_view (id : option jsstring) :
  let actions := fetchForm forms_select id in
  match (if truthy (default [] id) then forms_select (default [] id)
         else Data None) with
  | Data (Some data) =>
      view id (after actions initial) = Form (schema data) id
  | _ =>
      view id (after actions initial) = NotFound
      /\ length (toasts actions) = 1
  end.
Proof.
  unfold fetchForm.
  destruct (truthy (default [] id)); simpl; [|auto].
  destruct (forms_select (default [] id)) as [[data|]| |]; simpl; auto.
  destruct (negb (default false (accepting_responses data))); reflexivity.
Qed.

(** A form that does not accept responses any more is announced as such,
    and shown all the same. *)
Theorem fetchForm_closed_form_is_shown
    (id : jsstring) (data : Row) :
  truthy id = true ->
  forms_select id = Data (Some data) ->
  accepting_responses data <> Some true ->
  let actions := fetchForm forms_select (Some id) in
  view (Some id) (after actions initial) = Form (schema data) (Some id)
  /\ toasts actions = [JS "This form is no longer accepting responses"].
Proof.
  intros Hid Hrow Hclosed. unfold fetchForm. simpl. rewrite Hid, Hrow. simpl.
  destruct (accepting_responses data) as [[|]|]; [contradiction| |];
    simpl; auto.
Qed.

End SharedFormFacts.

Lemma fetchForm_closed_form_is_shown_witness :
  let row := SharedForm.mkRow (form_of [email_field]) (Some false) in
  let actions := SharedForm.fetchForm (fun _ => Data (Some row))
                                      (Some (JS "form-1")) in
  SharedForm.view (Some (JS "form-1"))
                  (SharedForm.after actions SharedForm.initial)
  = SharedForm.Form (form_of [email_field]) (Some (JS "form-1"))
  /\ SharedForm.toasts actions
     = [JS "This form is no longer accepting responses"].
Proof.
  intros row actions.
  apply (fetchForm_closed_form_is_shown (fun _ => Data (Some row))
           (JS "form-1") row); [reflexivity | reflexivity | discriminate].
Defined.

(** ** The edge function *)

Section ServeFacts.

Import GenerateFormFunction.

Variable value : Type.
Variable LOVABLE_API_KEY : option jsstring.
Variable fetch : FetchRequest -> FetchReply value.

Local Abbreviation serve := (serve value LOVABLE_API_KEY fetch).

(** Every response of the function, the error responses included, carries
    the two CORS headers, and its status is 200, 402, 429 or 500. *)
Theorem serve_cors_and_status (req : Request) :
  (forall h, In h corsHeaders -> In h (headers (snd (serve req))))
  /\ In (status (snd (serve req))) [200; 402; 429; 500]%N.
Proof.
  unfold GenerateFormFunction.serve, attempt.
  destruct (bool_decide (method req = JS "OPTIONS")); simpl; [auto|].
  assert (Hin : forall h, In h corsHeaders -> In h jsonHeaders).
  { intros h Hh. unfold jsonHeaders. apply in_or_app. now left. }
  destruct (json req) as [description|t]; simpl; [|auto 6].
  destruct (negb (truthy (default [] LOVABLE_API_KEY))); simpl; [auto 6|].
  destruct (fetch _) as [t|st txt completion]; simpl; [auto 6|].
  destruct (negb (ok st)).
  - destruct txt as [errorText|t]; simpl; [|auto 6].
    destruct (st =? 429)%N; simpl; [auto 6|].
    destruct (st =? 402)%N; simpl; auto 6.
  - destruct completion; simpl; auto 6.
Qed.

(** The function calls the AI gateway at most once, and it does so exactly
    when the request is not a preflight, its body can be read and the API key
    is configured; the call then carries the key as bearer token and the
    description as the user message. *)
Theorem serve_calls (req : Request) :
  fst (serve req)
  = match json req with
    | Got description =>
        if bool_decide (method req = JS "OPTIONS")
           || negb (truthy (default [] LOVABLE_API_KEY))
        then []
        else [mkFetch (JS "Bearer " ++ default [] LOVABLE_API_KEY)
                      description]
    | Threw _ => []
    end.
Proof.
  unfold GenerateFormFunction.serve, attempt.
  destruct (bool_decide (method req = JS "OPTIONS")); simpl.
  - now destruct (json req).
  - destruct (json req) as [description|t]; simpl; [|reflexivity].
    destruct (negb (truthy (default [] LOVABLE_API_KEY))); simpl;
      [reflexivity|].
    destruct (fetch _) as [t|st txt completion]; simpl; [reflexivity|].
    destruct (negb (ok st)).
    + destruct txt as [errorText|t]; simpl; [|reflexivity].
      destruct (st =? 429)%N; simpl; [reflexivity|].
      destruct (st =? 402)%N; reflexivity.
    + destruct completion; reflexivity.
Qed.

(** The function answers with a form schema in one case only: the request
    is not a preflight, its body can be read, the key is configured, the
    gateway responds with a status from 200 to 299, and the response holds a
    tool call whose arguments parse; the schema is then the parsed value. *)
Theorem serve_schema_iff (req : Request) (formSchema : value) :
  body (snd (serve req)) = SchemaJson formSchema
  <-> method req <> JS "OPTIONS"
      /\ truthy (default [] LOVABLE_API_KEY) = true
      /\ exists description st txt,
           json req = Got description
           /\ fetch (mkFetch (JS "Bearer " ++ default [] LOVABLE_API_KEY)
                             description)
              = Responded st txt (ToolCall formSchema)
           /\ ok st = true.
Proof.
  unfold GenerateFormFunction.serve, attempt. split.
  - destruct (bool_decide (method req = JS "OPTIONS")) eqn:Hm; simpl;
      [discriminate|].
    apply bool_decide_eq_false in Hm.
    destruct (json req) as [description|t]; simpl;
      [|destruct t; discriminate].
    destruct (truthy (default [] LOVABLE_API_KEY)) eqn:Hk; simpl;
      [|discriminate].
    destruct (fetch _) as [t|st txt completion] eqn:Hf; simpl;
      [destruct t; discriminate|].
    destruct (ok st) eqn:Hok; simpl.
    + destruct completion as [t| |v]; simpl;
        [destruct t; discriminate | discriminate |].
      intros [= <-]. split; [exact Hm|]. split; [reflexivity|].
      exists description, st, txt. auto.
    + destruct txt as [errorText|t]; simpl; [|destruct t; discriminate].
      destruct (st =? 429)%N; simpl; [discriminate|].
      destruct (st =? 402)%N; simpl; discriminate.
  - intros (Hm & Hk & description & st & txt & Hj & Hf & Hok).
    cbv zeta. rewrite bool_decide_eq_false_2 by exact Hm.
    rewrite Hj, Hk, Hf, Hok. reflexivity.
Qed.

(** An error status of the gateway whose text can be read: 429 and 402 are
    passed on with a fixed message each; every other status becomes a 500
    whose message quotes the status and the text. *)
Theorem serve_gateway_error
    (req : Request) (description : option jsstring)
    (st : N) (errorText : jsstring) (completion : Completion value) :
  method req <> JS "OPTIONS" ->
  json req = Got description ->
  truthy (default [] LOVABLE_API_KEY) = true ->
  fetch (mkFetch (JS "Bearer " ++ default [] LOVABLE_API_KEY) description)
  = Responded st (Got errorText) completion ->
  ok st = false ->
  snd (serve req)
  = if (st =? 429)%N
    then mkResponse 429 jsonHeaders
           (ErrorJson
              (JS "Rate limit exceeded. Please try again in a moment."))
    else if (st =? 402)%N
    then mkResponse 402 jsonHeaders
           (ErrorJson
              (JS "AI service requires additional credits. Please contact support."))
    else mkResponse 500 jsonHeaders
           (ErrorJson (JS "AI API returned " ++ Number_toString st
                         ++ JS ": " ++ errorText)).
Proof.
  intros Hm Hj Hk Hf Hok. unfold GenerateFormFunction.serve, attempt.
  cbv zeta. rewrite bool_decide_eq_false_2 by exact Hm.
  rewrite Hj, Hk, Hf, Hok. simpl.
  destruct (st =? 429)%N; [reflexivity|].
  destruct (st =? 402)%N; reflexivity.
Qed.

End ServeFacts.

Lemma serve_gateway_error_witness :
  snd (GenerateFormFunction.serve unit (Some (JS "key"))
         (fun _ => GenerateFormFunction.Responded 503
                     (GenerateFormFunction.Got (JS "down"))
                     GenerateFormFunction.NoToolCall)
         (GenerateFormFunction.mkRequest (JS "POST")
            (GenerateFormFunction.Got (Some (JS "a form")))))
  = GenerateFormFunction.mkResponse 500 GenerateFormFunction.jsonHeaders
      (GenerateFormFunction.ErrorJson (JS "AI API returned 503: down")).
Proof.
  apply (serve_gateway_error unit (Some (JS "key"))
           (fun _ => GenerateFormFunction.Responded 503
                       (GenerateFormFunction.Got (JS "down"))
                       GenerateFormFunction.NoToolCall)
           (GenerateFormFunction.mkRequest (JS "POST")
              (GenerateFormFunction.Got (Some (JS "a form"))))
           (Some (JS "a form")) 503 (JS "down")
           GenerateFormFunction.NoToolCall);
    [discriminate | reflexivity | reflexivity | reflexivity | reflexivity].
Defined.

(** ** Where a submission is filed *)

Section SubmissionTarget.

Variable RegExp : jsstring -> option (jsstring -> bool).
Context `{Supabase}.

(** A form filled in the preview of the builder is submitted without a form
    id, also when the builder holds the id of the saved form: the preview
    does not pass it on. *)
Theorem preview_submission_is_unlinked
    (s : FormBuilder.State) (schema : Schema.t) (formId : option jsstring)
    (cl : DynamicForm.State) (w : World DynamicForm.State) :
  builder_form_props s = Some (schema, formId) ->
  (forall field, In field (default [] (Schema.fields schema)) ->
     validateField RegExp field
       (DynamicForm.answer (DynamicForm.formData cl) field) = Return None) ->
  FormBuilder.formSchema s = Some schema
  /\ exists outcome,
       effects (run (DynamicForm.handleSubmit RegExp schema formId cl) w)
       = effects w
           ++ [SubmissionsInsert
                 (prop_or (Schema.title schema) (JS "Untitled Form"))
                 (DynamicForm.formData cl) None;
               outcome].
Proof.
  unfold builder_form_props, FormBuilder.preview.
  destruct (FormBuilder.formSchema s) as [g|]; [|discriminate].
  destruct (Schema.tag_eqb (Schema.type g) Schema.form); [|discriminate].
  intros [= -> <-] Hpass. split; [reflexivity|].
  unfold run.
  rewrite (handleSubmit_valid RegExp schema None cl w empty);
    [| now apply forEach_all_pass | apply map_size_empty].
  simpl. destruct (form_submissions_insert _ _ _); simpl; eauto.
Qed.

(** A form filled on its shared page is submitted under the identifier of
    the link. *)
Theorem shared_submission_is_linked
    (forms_select : jsstring -> Reply (option SharedForm.Row))
    (id : jsstring) (schema : Schema.t) (formId : option jsstring)
    (cl : DynamicForm.State) (w : World DynamicForm.State) :
  shared_form_props (Some id)
    (SharedForm.after (SharedForm.fetchForm forms_select (Some id))
                      SharedForm.initial)
  = Some (schema, formId) ->
  (forall field, In field (default [] (Schema.fields schema)) ->
     validateField RegExp field
       (DynamicForm.answer (DynamicForm.formData cl) field) = Return None) ->
  exists outcome,
    effects (run (DynamicForm.handleSubmit RegExp schema formId cl) w)
    = effects w
        ++ [SubmissionsInsert
              (prop_or (Schema.title schema) (JS "Untitled Form"))
              (DynamicForm.formData cl) (Some id);
            outcome].
Proof.
  unfold shared_form_props, SharedForm.fetchForm. simpl.
  destruct (truthy id) eqn:Hid; simpl; [|discriminate].
  destruct (forms_select id) as [[data|]| |]; simpl; try discriminate.
  destruct (negb (default false (SharedForm.accepting_responses data)));
    simpl; intros [= <- <-] Hpass; unfold run;
    (rewrite (handleSubmit_valid RegExp _ (Some id) cl w empty);
     [| now apply forEach_all_pass | apply map_size_empty]);
    simpl; rewrite Hid;
    destruct (form_submissions_insert _ _ _); simpl; eauto.
Qed.

End SubmissionTarget.

Lemma preview_submission_is_unlinked_witness :
  let s := FormBuilder.mkState (JS "a form") false
             (Some (form_of [email_field])) false (Some (JS "form-1")) in
  let cl := DynamicForm.mkState {[ JS "email" := JS "a@b.com" ]} empty
                                false false in
  exists outcome,
    effects (run (DynamicForm.handleSubmit (H := accepting (form_of []))
                    literalRegExp (form_of [email_field]) None cl)
                 (mkWorld cl [] []))
    = [SubmissionsInsert (JS "Untitled Form")
         {[ JS "email" := JS "a@b.com" ]} None;
       outcome].
Proof.
  intros s cl.
  destruct (preview_submission_is_unlinked literalRegExp
              (H := accepting (form_of [])) s (form_of [email_field]) None
              cl (mkWorld cl [] [])) as [_ Hex].
  - reflexivity.
  - intros field [<-|[]]. reflexivity.
  - exact Hex.
Defined.

Lemma shared_submission_is_linked_witness :
  let row := SharedForm.mkRow (form_of [email_field]) (Some true) in
  let cl := DynamicForm.mkState {[ JS "email" := JS "a@b.com" ]} empty
                                false false in
  exists outcome,
    effects (run (DynamicForm.handleSubmit (H := accepting (form_of []))
                    literalRegExp (form_of [email_field])
                    (Some (JS "form-1")) cl)
                 (mkWorld cl [] []))
    = [SubmissionsInsert (JS "Untitled Form")
         {[ JS "email" := JS "a@b.com" ]} (Some (JS "form-1"));
       outcome].
Proof.
  intros row cl.
  apply (shared_submission_is_linked literalRegExp
           (H := accepting (form_of [])) (fun _ => Data (Some row))
           (JS "form-1") (form_of [email_field]) (Some (JS "form-1"))
           cl (mkWorld cl [] [])).
  - reflexivity.
  - intros field [<-|[]]. reflexivity.
Defined.

(** ** Rendering *)

